(** * simply-org: the [simply org create scratch] command and its capacity helper

  A shallow embedding of

    - [src/common/orgUtils.ts]  ([getApiLimits], [canCreateScratchOrg]) and
    - [src/commands/simply/org/create/scratch.ts]  ([OrgCreateScratch]:
      the flag table and [run])

  together with the properties the specification states about them.

  JavaScript objects used as maps are [gmap string _]; the calls into the
  Salesforce SDK are fields of the class [Sdk]; [async] code is written in
  the command monad [Cmd], which records every external call and terminal
  action in order and ends in a returned value or a thrown one. *)

From Stdlib Require Import ZArith Ascii.
From stdpp Require Import base gmap strings list fin_maps pretty.

Set Warnings "-register-all".

(* ===================================================================== *)
(** ** JavaScript values and built-ins the command relies on             *)
(* ===================================================================== *)
Module Js.

(** What [JSON.parse] can return. Numbers are kept as integers: no claim
    looks inside a number of the definition file. *)
Inductive Json : Type :=
| JNull
| JBool (b : bool)
| JNumber (n : Z)
| JString (s : string)
| JArray (xs : list Json)
| JObject (kvs : list (string * Json)).

(** [Record<string, unknown>] *)
Abbreviation Obj := (gmap string Json).

(** Truthiness of a [string | undefined] flag value: [undefined] and the
    empty string are falsy, every other string is truthy. *)
Definition truthy (v : option string) : bool :=
  match v with
  | None => false
  | Some EmptyString => false
  | Some (String _ _) => true
  end.

(** [s.startsWith(search)] *)
Fixpoint startsWith (s search : string) {struct search} : bool :=
  match search with
  | EmptyString => true
  | String c search' =>
      match s with
      | EmptyString => false
      | String d s' => if Ascii.eqb c d then startsWith s' search' else false
      end
  end.

Fixpoint dropChars (n : nat) (s : string) : string :=
  match n, s with
  | O, _ => s
  | S _, EmptyString => EmptyString
  | S n', String _ s' => dropChars n' s'
  end.

(** [s.replace(pattern, replacement)] with a string pattern: only the
    first occurrence is replaced. (The replacement used by the command,
    a single space, contains none of the [$] patterns.) *)
Fixpoint replace (s pattern replacement : string) : string :=
  if startsWith s pattern
  then replacement +:+ dropChars (String.length pattern) s
  else match s with
       | EmptyString => EmptyString
       | String c s' => String c (replace s' pattern replacement)
       end.

(** [{ ...a, ...b }]: the keys of [b] win. *)
Definition spread (a b : Obj) : Obj := b ∪ a.

Fixpoint indexed {A} (i : nat) (xs : list A) : list (string * A) :=
  match xs with
  | [] => []
  | x :: xs' => (pretty i, x) :: indexed (S i) xs'
  end.

Fixpoint chars (s : string) : list Json :=
  match s with
  | EmptyString => []
  | String c s' => JString (String c EmptyString) :: chars s'
  end.

Definition fromEntries (kvs : list (string * Json)) : Obj :=
  fold_left (fun m kv => <[ kv.1 := kv.2 ]> m) kvs ∅.

(** The own enumerable properties an object spread copies out of a parsed
    JSON value: the members of an object (a repeated key keeps its last
    value), the indices of an array or of a string, nothing for [null],
    a boolean or a number. *)
Definition ownProperties (v : Json) : Obj :=
  match v with
  | JObject kvs => fromEntries kvs
  | JArray xs => fromEntries (indexed 0 xs)
  | JString s => fromEntries (indexed 0 (chars s))
  | JNull | JBool _ | JNumber _ => ∅
  end.

End Js.
Import Js.

(* ===================================================================== *)
(** ** [Flags.salesforceId] of sf-plugins-core, as configured by the flag table *)
(* ===================================================================== *)
Module IdFlag.

Inductive IdLength := Len15 | Len18 | LenBoth.

(** [IdFlagConfig]: [{ length?: 15 | 18 | 'both'; startsWith?: string }] *)
Record IdFlagConfig := {
  idLength : option IdLength;
  idStartsWith : option string;
}.

(** Without a length, or with ['both'], an id of 15 or of 18 characters is
    let through; with a number only that length is. *)
Definition allowedIdLength (config : IdFlagConfig) : list nat :=
  match idLength config with
  | None | Some LenBoth => [15; 18]
  | Some Len15 => [15]
  | Some Len18 => [18]
  end%nat.

Inductive IdError := InvalidIdLength | InvalidId | InvalidPrefix.

(** The flag's [parse], over the SDK's character-level test
    [validateSalesforceId]: the length test first, then the character test,
    then the prefix. *)
Definition validate (validateSalesforceId : string -> bool)
    (config : IdFlagConfig) (input : string) : IdError + string :=
  if negb (bool_decide (String.length input ∈ allowedIdLength config)) then inl InvalidIdLength
  else if negb (validateSalesforceId input) then inl InvalidId
  else match idStartsWith config with
       | Some p => if negb (startsWith input p) then inl InvalidPrefix else inr input
       | None => inr input
       end.

Definition isAlnum (c : ascii) : bool :=
  let n := nat_of_ascii c in
  ((48 <=? n) && (n <=? 57) || (65 <=? n) && (n <=? 90) || (97 <=? n) && (n <=? 122))%nat.

(** Does [s] go on to complete a run of [need] alphanumerics, [run] of them
    having just been read? *)
Fixpoint alnumRun (need run : nat) (s : string) : bool :=
  if (need <=? run)%nat then true
  else match s with
       | EmptyString => false
       | String c s' => alnumRun need (if isAlnum c then S run else O) s'
       end.

(** The SDK's test: [/[a-zA-Z0-9]{18}|[a-zA-Z0-9]{15}/.test(value)] and a
    length of 15 or 18. *)
Definition validateSalesforceId (value : string) : bool :=
  alnumRun 15 0 value
  && (Nat.eqb (String.length value) 15 || Nat.eqb (String.length value) 18).

End IdFlag.

(* ===================================================================== *)
(** ** src/common/limitTypes.ts                                          *)
(* ===================================================================== *)
Module LimitTypes.

(** One value of the [/limits] resource, [{ Max, Remaining }]. The counts
    are whole numbers. *)
Record LimitValue := { Max : Z; Remaining : Z }.

(** [LimitResult]: counter name to [{ Max, Remaining }]. *)
Abbreviation LimitResult := (gmap string LimitValue).

(** [Limit] *)
Record Limit := { name : string; max : Z; remaining : Z }.

End LimitTypes.

(* ===================================================================== *)
(** ** The SDK boundary and the command monad                            *)
(* ===================================================================== *)
Module Runtime.

(** [error.data] of the timeout error: [{ scratchOrgInfoId }]; the property
    may be missing. *)
Record ErrorData := { scratchOrgInfoId : option string }.

(** What a call into the SDK rejects (or throws) with. *)
Record Rejection := {
  instanceofSfError : bool;
  errorName : string;
  errorData : option ErrorData;
}.

(** A settled promise of the SDK. *)
Definition Settled (A : Type) : Type := Rejection + A.

Inductive DurationUnit := MINUTES | DAYS.

(** [Duration] of @salesforce/kit *)
Record Duration := { quantity : Z; durationUnit : DurationUnit }.

Definition Duration_minutes (q : Z) : Duration := {| quantity := q; durationUnit := MINUTES |}.
Definition Duration_days (q : Z) : Duration := {| quantity := q; durationUnit := DAYS |}.

(** The [days] getter: minutes are converted and rounded as [Math.round] does. *)
Definition days (d : Duration) : Z :=
  match durationUnit d with
  | DAYS => quantity d
  | MINUTES => (2 * quantity d + 1440) / 2880
  end%Z.

(** [ScratchOrgCreateOptions], the fields the command fills in. *)
Record ScratchOrgCreateOptions {Org : Type} := {
  alias : option string;
  apiversion : option string;
  clientSecret : option string;
  connectedAppConsumerKey : option string;
  durationDays : Z;
  hubOrg : Org;
  nonamespace : bool;
  noancestors : bool;
  orgConfig : Obj;
  setDefault : bool;
  tracksSource : bool;
  wait : Duration;
}.
Arguments ScratchOrgCreateOptions : clear implicits.

(** What [scratchOrgCreate] resolves with. *)
Record ScratchOrgCreateResult {ScratchOrgInfo AuthFields : Type} := {
  result_username : option string;
  result_scratchOrgInfo : option ScratchOrgInfo;
  result_authFields : option AuthFields;
  result_warnings : list string;
}.
Arguments ScratchOrgCreateResult : clear implicits.

(** [ScratchCreateResponse], what the command returns. *)
Record ScratchCreateResponse {ScratchOrgInfo AuthFields : Type} := {
  username : option string;
  scratchOrgInfo : option ScratchOrgInfo;
  authFields : option AuthFields;
  warnings : list string;
  orgId : option string;
}.
Arguments ScratchCreateResponse : clear implicits.

(** A token of a message: [string | undefined]. *)
Definition Token : Type := option string.

(** Everything the two source files import and call. A promise is given by
    what it settles with, and within one run the same call settles the same
    way; [scratchOrgCreate] also yields the lifecycle events it emits while
    it runs. [createErrorName] is the name the message registry gives the
    error it makes for a key. *)
Class Sdk := {
  AuthInfo : Type;
  Connection : Type;
  Org : Type;
  ScratchOrgInfo : Type;
  AuthFields : Type;
  ScratchOrgLifecycleEvent : Type;
  AuthInfo_create : string -> Settled AuthInfo;
  Connection_create : AuthInfo -> Settled Connection;
  connection_request : Connection -> string -> Settled LimitTypes.LimitResult;
  Org_create : Connection -> Settled Org;
  Org_INSTANCE_URL : Org -> option string;
  scratchOrgCreate :
    ScratchOrgCreateOptions Org ->
    list ScratchOrgLifecycleEvent * Settled (ScratchOrgCreateResult ScratchOrgInfo AuthFields);
  scratchOrgLifecycleEventName : string;
  ScratchOrgInfo_Id : ScratchOrgInfo -> option string;
  AuthFields_orgId : AuthFields -> option string;
  buildStatus : ScratchOrgLifecycleEvent -> string -> string;
  getMessage : string -> list Token -> string;
  createErrorName : string -> string;
  secretPrompt : string -> Settled string;
  readFile : string -> Settled string;
  JSON_parse : string -> Settled Json;
  config_bin : string;
}.

(** A thrown value, by where it was made. *)
Inductive Thrown : Type :=
| MessagesError (key : string)                    (* messages.createError(key) *)
| NewSfError (message : string)                   (* new SfError(message) *)
| CLIError (message code : string) (exit : Z)     (* this.error(message, { code, exit }) *)
| TypeError                                       (* a property read on undefined *)
| Rejected (e : Rejection).                       (* what an SDK call rejected with *)

Inductive Outcome (A : Type) : Type :=
| Returned (a : A)
| Threw (e : Thrown).
Arguments Returned {A} a.
Arguments Threw {A} e.

Section Monad.
Context `{sdk : Sdk}.

(** The calls made and the terminal actions taken, as they happen. *)
Inductive Event : Type :=
| CallAuthInfoCreate (username : string)
| CallConnectionCreate (authInfo : AuthInfo)
| CallRequest (connection : Connection) (url : string)
| CallOrgCreate (connection : Connection)
| CallSecretPrompt (message : string)
| CallReadFile (path : string)
| CallScratchOrgCreate (options : ScratchOrgCreateOptions Org)
| LifecycleOn (eventName : string) (baseUrl : string)
| Log
| SpinnerStart (message : string)
| SpinnerStatus (status : string)
| SpinnerStop (status : option string)
| Info (message : string)
| LogSuccess (message : string).

(** A run of asynchronous code: what it did, and how it ended. *)
Record Cmd (A : Type) : Type := MkCmd {
  effects : list Event;
  outcome : Outcome A;
}.
Arguments MkCmd {A} effects outcome.
Arguments effects {A} c.
Arguments outcome {A} c.

#[export] Instance cmd_ret : MRet Cmd := fun A a => MkCmd [] (Returned a).

#[export] Instance cmd_bind : MBind Cmd := fun A B k m =>
  match outcome m with
  | Returned a => MkCmd (effects m ++ effects (k a)) (outcome (k a))
  | Threw e => MkCmd (effects m) (Threw e)
  end.

Definition throw {A} (e : Thrown) : Cmd A := MkCmd [] (Threw e).

Definition emit (ev : Event) : Cmd unit := MkCmd [ev] (Returned tt).

Definition settle {A} (s : Settled A) : Cmd A :=
  match s with
  | inr a => mret a
  | inl e => throw (Rejected e)
  end.

(** [await f(...)]: the call is made, then the promise settles. *)
Definition await {A} (call : Event) (s : Settled A) : Cmd A :=
  emit call;; settle s.

(** [try { body } catch (error) { handler }] *)
Definition tryCatch {A} (body : Cmd A) (handler : Thrown -> Cmd A) : Cmd A :=
  match outcome body with
  | Returned _ => body
  | Threw e => MkCmd (effects body ++ effects (handler e)) (outcome (handler e))
  end.

End Monad.

Arguments MkCmd {sdk A} effects outcome.
Arguments effects {sdk A} c.
Arguments outcome {sdk A} c.

End Runtime.

(* ===================================================================== *)
(** ** src/common/orgUtils.ts                                            *)
(* ===================================================================== *)
Module OrgUtils.
Import LimitTypes Runtime.

(** [([name, { Max, Remaining }]) => ({ name, max: Max, remaining: Remaining })] *)
Definition asLimit (entry : string * LimitValue) : Limit :=
  {| name := entry.1; max := Max entry.2; remaining := Remaining entry.2 |}.

(** [Object.entries(result).map(...)]. The names of the entries are the
    keys of an object, each there once. *)
Definition toLimits (result : LimitResult) : list Limit :=
  asLimit <$> map_to_list result.

(** [limits.find((limit) => limit.name === wanted)] *)
Definition findLimit (wanted : string) (limits : list Limit) : option Limit :=
  List.find (fun limit => bool_decide (name limit = wanted)) limits.

(** [x?.remaining ?? 0] *)
Definition remainingOrZero (x : option Limit) : Z :=
  match x with
  | Some limit => remaining limit
  | None => 0
  end.

(** What [canCreateScratchOrg] computes once the limits are there. *)
Definition canCreateFrom (limits : list Limit) : bool :=
  let activeScratchOrgs := findLimit "ActiveScratchOrgs" limits in
  let dailyScratchOrgs := findLimit "DailyScratchOrgs" limits in
  let activeRemaining := remainingOrZero activeScratchOrgs in
  let dailyRemaining := remainingOrZero dailyScratchOrgs in
  (0 <? activeRemaining)%Z && (0 <? dailyRemaining)%Z.

Section WithSdk.
Context `{sdk : Sdk}.

Definition getApiLimits (connection : Connection) : Cmd (list Limit) :=
  result ← await (CallRequest connection "/limits") (connection_request connection "/limits");
  mret (toLimits result).

Definition canCreateScratchOrg (connection : Connection) : Cmd bool :=
  limits ← getApiLimits connection;
  mret (canCreateFrom limits).

End WithSdk.

(** The specification's reading of a limits response: both counters are
    there and both have something left. *)
Definition hasCapacity (result : LimitResult) : Prop :=
  exists a d,
    result !! "ActiveScratchOrgs" = Some a /\
    result !! "DailyScratchOrgs" = Some d /\
    (0 < Remaining a)%Z /\ (0 < Remaining d)%Z.

End OrgUtils.

(* ===================================================================== *)
(** ** src/commands/simply/org/create/scratch.ts                         *)
(* ===================================================================== *)

(** The parsed flags. A string flag that was not given is [None]; a boolean
    flag that was not given counts as [false]. *)
Module Flag.
Import Runtime.

Record Flags := {
  admin_email : option string;
  alias : option string;
  api_version : option string;
  async : bool;
  client_id : option string;
  definition_file : option string;
  description : option string;
  duration_days : Duration;
  edition : option string;
  name : option string;
  no_ancestors : bool;
  no_namespace : bool;
  release : option string;
  set_default : bool;
  source_org : option string;
  target_dev_hub : option (list string);
  track_source : bool;
  username : option string;
  wait : Duration;
}.

End Flag.

Module OrgCreateScratch.
Import LimitTypes Runtime OrgUtils.

(** [flags.edition.parse] *)
Definition edition_parse (value : string) : string :=
  if startsWith value "partner-" then replace value "-" " " else value.

(** The configuration of the ['source-org'] flag. *)
Definition source_org_config : IdFlag.IdFlagConfig :=
  {| IdFlag.idLength := Some IdFlag.Len15; IdFlag.idStartsWith := Some "00D" |}.

Definition source_org_parse (validateSalesforceId : string -> bool) (input : string)
  : IdFlag.IdError + string :=
  IdFlag.validate validateSalesforceId source_org_config input.

(** [...(flag ? { key: flag } : {})] *)
Definition overlay (flag : option string) (key : string) : Obj :=
  if truthy flag then {[ key := JString (default "" flag) ]} else ∅.

(** An object literal made of spreads only, left to right. *)
Definition spreadAll (parts : list Obj) : Obj := fold_left spread parts ∅.

(** The [orgConfig] property, [definition] being what the definition file
    contributes ([{}] without one). *)
Definition orgConfigOf (definition : Obj) (flags : Flag.Flags) : Obj :=
  spreadAll
    [ definition;
      overlay (Flag.edition flags) "edition";
      overlay (Flag.username flags) "username";
      overlay (Flag.description flags) "description";
      overlay (Flag.name flags) "orgName";
      overlay (Flag.release flags) "release";
      overlay (Flag.source_org flags) "sourceOrg";
      overlay (Flag.admin_email flags) "adminEmail" ].

(** The seven flags laid over the definition file, and the key each writes. *)
Inductive OverlayFlag :=
| Edition | Username | Description | Name | Release | SourceOrg | AdminEmail.

Definition flagValue (o : OverlayFlag) (flags : Flag.Flags) : option string :=
  match o with
  | Edition => Flag.edition flags
  | Username => Flag.username flags
  | Description => Flag.description flags
  | Name => Flag.name flags
  | Release => Flag.release flags
  | SourceOrg => Flag.source_org flags
  | AdminEmail => Flag.admin_email flags
  end.

Definition configKey (o : OverlayFlag) : string :=
  match o with
  | Edition => "edition"
  | Username => "username"
  | Description => "description"
  | Name => "orgName"
  | Release => "release"
  | SourceOrg => "sourceOrg"
  | AdminEmail => "adminEmail"
  end.

Definition timeoutErrorName : string := "ScratchOrgInfoTimeoutError".

(** [error instanceof SfError], [error.name] and [error.data] of a caught
    value. An error of the message registry and [new SfError] are SfErrors
    without data; the name of the former is made from its key by the SDK. *)
Definition isSfError (error : Thrown) : bool :=
  match error with
  | MessagesError _ | NewSfError _ => true
  | CLIError _ _ _ | TypeError => false
  | Rejected e => instanceofSfError e
  end.

Definition nameOf `{sdk : Sdk} (error : Thrown) : string :=
  match error with
  | MessagesError key => createErrorName key
  | NewSfError _ => "SfError"
  | CLIError _ _ _ => "Error"
  | TypeError => "TypeError"
  | Rejected e => errorName e
  end.

Definition dataOf (error : Thrown) : option ErrorData :=
  match error with
  | Rejected e => errorData e
  | _ => None
  end.

Section Run.
Context `{sdk : Sdk}.

Abbreviation Response := (ScratchCreateResponse ScratchOrgInfo AuthFields).
Abbreviation Options := (ScratchOrgCreateOptions Org).

(** Lines 168-179: the loop over the candidate dev hubs. [Some org] is the
    [break] with [targetDevHubOrg] set; [None] is the list running out. *)
Fixpoint selectDevHub (targetDevHubs : list string) : Cmd (option Org) :=
  match targetDevHubs with
  | [] => mret None
  | targetDevHub :: rest =>
      targetDevHubAuthInfo ← await (CallAuthInfoCreate targetDevHub) (AuthInfo_create targetDevHub);
      targetDevHubConnection ←
        await (CallConnectionCreate targetDevHubAuthInfo) (Connection_create targetDevHubAuthInfo);
      available ← canCreateScratchOrg targetDevHubConnection;
      if available : bool
      then targetDevHubOrg ← await (CallOrgCreate targetDevHubConnection) (Org_create targetDevHubConnection);
           mret (Some targetDevHubOrg)
      else selectDevHub rest
  end.

(** Lines 166-183. *)
Definition resolveDevHub (flags : Flag.Flags) : Cmd Org :=
  targetDevHubOrg ← selectDevHub (default [] (Flag.target_dev_hub flags));
  match targetDevHubOrg with
  | None => throw (MessagesError "noAvailableDevhubs")
  | Some org => mret org
  end.

(** Lines 185-216: the instance URL and the options handed to the workflow. *)
Definition assembleOptions (flags : Flag.Flags) (targetDevHubOrg : Org) : Cmd (string * Options) :=
  baseUrl ← (let baseUrl := Org_INSTANCE_URL targetDevHubOrg in
             if negb (truthy baseUrl)
             then throw (NewSfError "No instance URL found for the dev hub")
             else mret (default "" baseUrl));
  clientSecret ← (if truthy (Flag.client_id flags)
                  then secret ← await (CallSecretPrompt (getMessage "prompt.secret" []))
                                      (secretPrompt (getMessage "prompt.secret" []));
                       mret (Some secret)
                  else mret None);
  definition ← (if truthy (Flag.definition_file flags)
                then let path := default "" (Flag.definition_file flags) in
                     text ← await (CallReadFile path) (readFile path);
                     json ← settle (JSON_parse text);
                     mret (ownProperties json)
                else mret ∅);
  mret (baseUrl,
        {| alias := Flag.alias flags;
           apiversion := Flag.api_version flags;
           clientSecret := clientSecret;
           connectedAppConsumerKey := Flag.client_id flags;
           durationDays := days (Flag.duration_days flags);
           hubOrg := targetDevHubOrg;
           nonamespace := Flag.no_namespace flags;
           noancestors := Flag.no_ancestors flags;
           orgConfig := orgConfigOf definition flags;
           setDefault := Flag.set_default flags;
           tracksSource := Flag.track_source flags;
           wait := if Flag.async flags then Duration_minutes 0 else Flag.wait flags |}).

(** The listener of lines 223-227 run on the events the workflow emits:
    each sets [lastStatus] and the spinner's status. *)
Fixpoint listen (baseUrl : string) (events : list ScratchOrgLifecycleEvent)
    (lastStatus : option string) : Cmd (option string) :=
  match events with
  | [] => mret lastStatus
  | data :: rest =>
      let status := buildStatus data baseUrl in
      emit (SpinnerStatus status);;
      listen baseUrl rest (Some status)
  end.

(** Lines 236-249: the body of the [try] once the workflow has settled. *)
Definition onSettled (flags : Flag.Flags) (lastStatus : option string)
    (settled : Settled (ScratchOrgCreateResult ScratchOrgInfo AuthFields)) : Cmd Response :=
  result ← settle settled;
  emit (SpinnerStop lastStatus);;
  match result_scratchOrgInfo result with
  | None => throw (NewSfError "The scratch org did not return with any information")
  | Some info =>
      emit Log;;
      (if Flag.async flags
       then emit (Info (getMessage "action.resume" [Some config_bin; ScratchOrgInfo_Id info]))
       else emit (LogSuccess (getMessage "success" [])));;
      mret {| username := result_username result;
              scratchOrgInfo := Some info;
              authFields := result_authFields result;
              warnings := result_warnings result;
              orgId := result_authFields result ≫= AuthFields_orgId |}
  end.

(** Lines 250-261: the [catch]. *)
Definition onError (lastStatus : option string) (error : Thrown) : Cmd Response :=
  if isSfError error && bool_decide (nameOf error = timeoutErrorName)
  then emit (SpinnerStop lastStatus);;
       scratchOrgInfoId ← match dataOf error with
                          | Some data => mret (scratchOrgInfoId data)
                          | None => throw TypeError
                          end;
       let resumeMessage := getMessage "action.resume" [Some config_bin; scratchOrgInfoId] in
       emit (Info resumeMessage);;
       throw (CLIError "The scratch org did not complete within your wait time" "69" 69)
  else throw error.

(** Lines 218-261: the subscription, the spinner, the call and its outcome. *)
Definition invoke (flags : Flag.Flags) (baseUrl : string) (scratchOrgCreateOptions : Options)
  : Cmd Response :=
  (if negb (Flag.async flags)
   then emit (LifecycleOn scratchOrgLifecycleEventName baseUrl)
   else mret tt);;
  emit Log;;
  emit (SpinnerStart (if Flag.async flags
                      then "Requesting Scratch Org (will not wait for completion because --async)"
                      else "Creating Scratch Org"));;
  emit (CallScratchOrgCreate scratchOrgCreateOptions);;
  lastStatus ← (if negb (Flag.async flags)
                then listen baseUrl (scratchOrgCreate scratchOrgCreateOptions).1 None
                else mret None);
  tryCatch (onSettled flags lastStatus (scratchOrgCreate scratchOrgCreateOptions).2)
           (onError lastStatus).

(** Everything before the subscription: the hub, then the options. *)
Definition prepare (flags : Flag.Flags) : Cmd (string * Options) :=
  targetDevHubOrg ← resolveDevHub flags;
  assembleOptions flags targetDevHubOrg.

(** [OrgCreateScratch.run], the flags being parsed. *)
Definition run (flags : Flag.Flags) : Cmd Response :=
  prepared ← prepare flags;
  invoke flags prepared.1 prepared.2.

(** The dev hubs a run contacted, in order. *)
Definition contacted (trace : list Event) : list string :=
  omap (fun ev => match ev with CallAuthInfoCreate u => Some u | _ => None end) trace.

(** The options each call of the workflow was given. *)
Definition passedDownstream (trace : list Event) : list Options :=
  omap (fun ev => match ev with CallScratchOrgCreate o => Some o | _ => None end) trace.

(** The lifecycle events a run subscribed to. *)
Definition subscriptions (trace : list Event) : list string :=
  omap (fun ev => match ev with LifecycleOn n _ => Some n | _ => None end) trace.

(** A stretch of a run in which the workflow is not called and nothing is
    subscribed to. *)
Definition quiet (trace : list Event) : Prop :=
  passedDownstream trace = [] /\ subscriptions trace = [].

(** [error] is the timeout error of the workflow. *)
Definition isTimeoutError (error : Rejection) : Prop :=
  instanceofSfError error = true /\ errorName error = timeoutErrorName.

(** The hub named [hub] answers the limits request with [limits], over
    [connection]. *)
Definition reports (hub : string) (connection : Connection) (limits : LimitResult) : Prop :=
  exists authInfo,
    AuthInfo_create hub = inr authInfo /\
    Connection_create authInfo = inr connection /\
    connection_request connection "/limits" = inr limits.

End Run.

End OrgCreateScratch.

(* ===================================================================== *)
(** ** A small world to run the command in                               *)
(* ===================================================================== *)

(** Two dev hubs as in the example of the specification ([hubA] has used
    up its active scratch orgs and reports no daily counter, [hubB] has
    room), any other hub reporting nothing; handles are the user names
    they were made from; the workflow's answer is picked by the alias. *)
Module Demo.
Import LimitTypes Runtime OrgCreateScratch.

Definition limitsOf (hub : string) : LimitResult :=
  if bool_decide (hub = "hubA")
  then {[ "ActiveScratchOrgs" := {| Max := 3; Remaining := 0 |} ]}
  else if bool_decide (hub = "hubB")
  then {[ "ActiveScratchOrgs" := {| Max := 3; Remaining := 3 |};
          "DailyScratchOrgs" := {| Max := 6; Remaining := 1 |} ]}
  else ∅.

Definition timeoutError : Rejection :=
  {| instanceofSfError := true;
     errorName := "ScratchOrgInfoTimeoutError";
     errorData := Some {| scratchOrgInfoId := Some "2SR000000000001" |} |}.

Definition signupError : Rejection :=
  {| instanceofSfError := true;
     errorName := "RemoteOrgSignupFailed";
     errorData := None |}.

Definition created : ScratchOrgCreateResult string string :=
  {| result_username := Some "test-1@example.com";
     result_scratchOrgInfo := Some "2SR000000000001";
     result_authFields := Some "00D000000000001";
     result_warnings := [] |}.

Definition hollow : ScratchOrgCreateResult string string :=
  {| result_username := None;
     result_scratchOrgInfo := None;
     result_authFields := None;
     result_warnings := [] |}.

Definition workflow (options : ScratchOrgCreateOptions string)
  : list string * Settled (ScratchOrgCreateResult string string) :=
  if bool_decide (alias options = Some "slow") then (["Creating"], inl timeoutError)
  else if bool_decide (alias options = Some "refused") then ([], inl signupError)
  else if bool_decide (alias options = Some "hollow") then (["Creating"], inr hollow)
  else (["Creating"; "Deploying"], inr created).

Definition definitionJson : Json :=
  JObject [("edition", JString "Developer");
           ("orgName", JString "Acme");
           ("description", JString "from the file");
           ("hasSampleData", JBool true)].

Definition sdk : Sdk :=
  {| AuthInfo := string;
     Connection := string;
     Org := string;
     ScratchOrgInfo := string;
     AuthFields := string;
     ScratchOrgLifecycleEvent := string;
     AuthInfo_create := fun username => inr username;
     Connection_create := fun authInfo => inr authInfo;
     connection_request := fun connection _ => inr (limitsOf connection);
     Org_create := fun connection => inr connection;
     Org_INSTANCE_URL := fun org => Some ("https://" +:+ org);
     scratchOrgCreate := workflow;
     scratchOrgLifecycleEventName := "scratchOrgLifecycleEvent";
     ScratchOrgInfo_Id := fun info => Some info;
     AuthFields_orgId := fun fields => Some fields;
     buildStatus := fun data baseUrl => data +:+ " on " +:+ baseUrl;
     getMessage := fun key tokens => key +:+ ":" +:+ String.concat "," (default "" <$> tokens);
     createErrorName := fun key => key +:+ "Error";
     secretPrompt := fun _ => inr "secret";
     readFile := fun _ => inr "{}";
     JSON_parse := fun _ => inr definitionJson;
     config_bin := "sf" |}.

(** [sf simply org create scratch -v hubA -v hubB -v hubC -f def.json -a
    <alias> --description <description>], with or without [--async]. *)
Definition flagsWith (alias : string) (description : option string) (async : bool)
  : Flag.Flags :=
  {| Flag.admin_email := None;
     Flag.alias := Some alias;
     Flag.api_version := None;
     Flag.async := async;
     Flag.client_id := None;
     Flag.definition_file := Some "def.json";
     Flag.description := description;
     Flag.duration_days := Duration_days 7;
     Flag.edition := None;
     Flag.name := Some "Demo";
     Flag.no_ancestors := false;
     Flag.no_namespace := false;
     Flag.release := None;
     Flag.set_default := false;
     Flag.source_org := None;
     Flag.target_dev_hub := Some ["hubA"; "hubB"; "hubC"];
     Flag.track_source := true;
     Flag.username := None;
     Flag.wait := Duration_minutes 5 |}.

(** The same with a single hub, one without capacity. *)
Definition flagsOnHubA : Flag.Flags :=
  {| Flag.admin_email := None;
     Flag.alias := None;
     Flag.api_version := None;
     Flag.async := false;
     Flag.client_id := None;
     Flag.definition_file := None;
     Flag.description := None;
     Flag.duration_days := Duration_days 7;
     Flag.edition := None;
     Flag.name := None;
     Flag.no_ancestors := false;
     Flag.no_namespace := false;
     Flag.release := None;
     Flag.set_default := false;
     Flag.source_org := None;
     Flag.target_dev_hub := Some ["hubA"; "hubC"];
     Flag.track_source := true;
     Flag.username := None;
     Flag.wait := Duration_minutes 5 |}.

(** The options [flagsWith] leads to, on [hubB]. *)
Definition optionsWith (alias : string) (description : option string) (async : bool)
  : ScratchOrgCreateOptions string :=
  {| Runtime.alias := Some alias;
     apiversion := None;
     clientSecret := None;
     connectedAppConsumerKey := None;
     durationDays := 7;
     hubOrg := "hubB";
     nonamespace := false;
     noancestors := false;
     orgConfig := orgConfigOf (ownProperties definitionJson) (flagsWith alias description async);
     setDefault := false;
     tracksSource := true;
     Runtime.wait := if async then Duration_minutes 0 else Duration_minutes 5 |}.

End Demo.

(* ===================================================================== *)
(** ** What a run can be observed to do                                  *)
(* ===================================================================== *)
Module Observed.
Import LimitTypes Runtime OrgUtils OrgCreateScratch.

Section WithSdk.
Context `{sdk : Sdk}.

(** The secret prompts of a run, by their message. *)
Definition prompts (trace : list Event) : list string :=
  omap (fun ev => match ev with CallSecretPrompt m => Some m | _ => None end) trace.

(** The files a run read. *)
Definition filesRead (trace : list Event) : list string :=
  omap (fun ev => match ev with CallReadFile p => Some p | _ => None end) trace.

(** The connections an org was made from. *)
Definition orgsCreated (trace : list Event) : list Connection :=
  omap (fun ev => match ev with CallOrgCreate c => Some c | _ => None end) trace.

(** The statuses the spinner was given, and what it was stopped with. *)
Definition spinnerStatuses (trace : list Event) : list string :=
  omap (fun ev => match ev with SpinnerStatus st => Some st | _ => None end) trace.

Definition spinnerStops (trace : list Event) : list (option string) :=
  omap (fun ev => match ev with SpinnerStop st => Some st | _ => None end) trace.

(** The calls a run makes while it chooses the hub and assembles the
    options. *)
Definition isPreparation (ev : Event) : bool :=
  match ev with
  | CallAuthInfoCreate _ | CallConnectionCreate _ | CallRequest _ _
  | CallOrgCreate _ | CallSecretPrompt _ | CallReadFile _ => true
  | _ => false
  end.

(** The calls of the loop over the hubs. *)
Definition isHubProbe (ev : Event) : bool :=
  match ev with
  | CallAuthInfoCreate _ | CallConnectionCreate _ | CallRequest _ _
  | CallOrgCreate _ => true
  | _ => false
  end.

(** The calls made while the options are assembled. *)
Definition isAssembly (ev : Event) : bool :=
  match ev with
  | CallSecretPrompt _ | CallReadFile _ => true
  | _ => false
  end.

(** The probe of [hub] rejects with [e]: the authorization does, or the
    connection, or the limits request. *)
Definition unreachable (hub : string) (e : Rejection) : Prop :=
  AuthInfo_create hub = inl e \/
  exists authInfo,
    AuthInfo_create hub = inr authInfo /\
    (Connection_create authInfo = inl e \/
     exists connection,
       Connection_create authInfo = inr connection /\
       connection_request connection "/limits" = inl e).

(** The statuses the listener makes of the lifecycle events. *)
Definition statusesOf (baseUrl : string) (events : list ScratchOrgLifecycleEvent)
  : list string :=
  (fun data => buildStatus data baseUrl) <$> events.

(** What the definition file contributes to [orgConfig]: nothing without
    the flag, else the own properties of what the file parses to. *)
Definition contributes (flags : Flag.Flags) (definition : Obj) : Prop :=
  if truthy (Flag.definition_file flags)
  then exists text json,
         readFile (default "" (Flag.definition_file flags)) = inr text /\
         JSON_parse text = inr json /\
         definition = ownProperties json
  else definition = ∅.

End WithSdk.

End Observed.

(* ===================================================================== *)
(** ** A second small world, where things go wrong                       *)
(* ===================================================================== *)

(** As [Demo], with a hub that cannot be authorized ([hubDown]), a hub
    whose limits request is rejected ([hubMute]), a hub with
    room whose org cannot be made ([hubNoOrg]), a hub with room and no
    instance URL ([hubNoUrl]), a hub with the room of [hubB] under other
    maxima and one more counter ([hubBig]), a definition file that is missing and one
    that does not parse, and a timeout error without data (alias
    [stalled]). *)
Module Outage.
Import LimitTypes Runtime OrgCreateScratch.

Definition authError : Rejection :=
  {| instanceofSfError := true; errorName := "NamedOrgNotFoundError"; errorData := None |}.

Definition limitsError : Rejection :=
  {| instanceofSfError := false; errorName := "REQUEST_LIMIT_EXCEEDED"; errorData := None |}.

Definition orgError : Rejection :=
  {| instanceofSfError := true; errorName := "AuthInfoCreationError"; errorData := None |}.

Definition fileError : Rejection :=
  {| instanceofSfError := false; errorName := "Error"; errorData := None |}.

Definition syntaxError : Rejection :=
  {| instanceofSfError := false; errorName := "SyntaxError"; errorData := None |}.

Definition bareTimeout : Rejection :=
  {| instanceofSfError := true; errorName := "ScratchOrgInfoTimeoutError"; errorData := None |}.

Definition limitsOf (hub : string) : LimitResult :=
  if bool_decide (hub = "hubNoOrg") || bool_decide (hub = "hubNoUrl")
  then Demo.limitsOf "hubB"
  else if bool_decide (hub = "hubBig")
  then {[ "ActiveScratchOrgs" := {| Max := 200; Remaining := 3 |};
          "DailyScratchOrgs" := {| Max := 400; Remaining := 1 |};
          "DailyApiRequests" := {| Max := 15000; Remaining := 0 |} ]}
  else Demo.limitsOf hub.

Definition workflow (options : ScratchOrgCreateOptions string)
  : list string * Settled (ScratchOrgCreateResult string string) :=
  if bool_decide (alias options = Some "stalled") then (["Creating"], inl bareTimeout)
  else Demo.workflow options.

Definition sdk : Sdk :=
  {| AuthInfo := string;
     Connection := string;
     Org := string;
     ScratchOrgInfo := string;
     AuthFields := string;
     ScratchOrgLifecycleEvent := string;
     AuthInfo_create := fun username =>
       if bool_decide (username = "hubDown") then inl authError else inr username;
     Connection_create := fun authInfo => inr authInfo;
     connection_request := fun connection _ =>
       if bool_decide (connection = "hubMute") then inl limitsError
       else inr (limitsOf connection);
     Org_create := fun connection =>
       if bool_decide (connection = "hubNoOrg") then inl orgError else inr connection;
     Org_INSTANCE_URL := fun org =>
       if bool_decide (org = "hubNoUrl") then None else Some ("https://" +:+ org);
     scratchOrgCreate := workflow;
     scratchOrgLifecycleEventName := "scratchOrgLifecycleEvent";
     ScratchOrgInfo_Id := fun info => Some info;
     AuthFields_orgId := fun fields => Some fields;
     buildStatus := fun data baseUrl => data +:+ " on " +:+ baseUrl;
     getMessage := fun key tokens => key +:+ ":" +:+ String.concat "," (default "-" <$> tokens);
     createErrorName := fun key => key +:+ "Error";
     secretPrompt := fun _ => inr "secret";
     readFile := fun path =>
       if bool_decide (path = "missing.json") then inl fileError
       else if bool_decide (path = "broken.json") then inr "{"
       else inr "{}";
     JSON_parse := fun text =>
       if bool_decide (text = "{") then inl syntaxError else inr Demo.definitionJson;
     config_bin := "sf" |}.

(** [sf simply org create scratch] on the given hubs, with an alias and,
    if given, a client id and a definition file. *)
Definition flagsOn (hubs : list string) (alias : string) (clientId file : option string)
    (async : bool) : Flag.Flags :=
  {| Flag.admin_email := None;
     Flag.alias := Some alias;
     Flag.api_version := None;
     Flag.async := async;
     Flag.client_id := clientId;
     Flag.definition_file := file;
     Flag.description := None;
     Flag.duration_days := Duration_days 7;
     Flag.edition := Some "partner developer";
     Flag.name := None;
     Flag.no_ancestors := false;
     Flag.no_namespace := true;
     Flag.release := None;
     Flag.set_default := true;
     Flag.source_org := None;
     Flag.target_dev_hub := Some hubs;
     Flag.track_source := true;
     Flag.username := None;
     Flag.wait := Duration_minutes 5 |}.

(** The options [flagsOn] leads to on [hubB], [definition] being what the
    definition file contributes. *)
Definition optionsOn (hubs : list string) (alias : string) (clientId file : option string)
    (async : bool) (definition : Obj) : ScratchOrgCreateOptions string :=
  {| Runtime.alias := Some alias;
     apiversion := None;
     clientSecret := if truthy clientId then Some "secret" else None;
     connectedAppConsumerKey := clientId;
     durationDays := 7;
     hubOrg := "hubB";
     nonamespace := true;
     noancestors := false;
     orgConfig := orgConfigOf definition (flagsOn hubs alias clientId file async);
     setDefault := true;
     tracksSource := true;
     Runtime.wait := if async then Duration_minutes 0 else Duration_minutes 5 |}.

End Outage.

(* ===================================================================== *)
(** ** Properties of the built-ins                                       *)
(* ===================================================================== *)
Section JsFacts.

Lemma startsWith_append (p s : string) : startsWith (p +:+ s) p = true.
Proof.
  induction p as [|c p IH]; simpl.
  - reflexivity.
  - rewrite Ascii.eqb_refl. exact IH.
Qed.

Lemma startsWith_inv (s p : string) :
  startsWith s p = true -> exists rest, s = p +:+ rest.
Proof.
  revert s. induction p as [|c p IH]; intros s H; simpl in *.
  - exists s. reflexivity.
  - destruct s as [|d s]; [discriminate|].
    destruct (Ascii.eqb_spec c d) as [->|]; [|discriminate].
    destruct (IH _ H) as [rest ->]. exists rest. reflexivity.
Qed.

Lemma spread_lookup_hit (a b : Obj) (k : string) (v : Json) :
  b !! k = Some v -> spread a b !! k = Some v.
Proof. intros H. unfold spread. by apply lookup_union_Some_l. Qed.

Lemma spread_lookup_miss (a b : Obj) (k : string) :
  b !! k = None -> spread a b !! k = a !! k.
Proof. intros H. unfold spread. by rewrite lookup_union_r. Qed.

Example replace_first_occurrence_only : replace "a-b-c" "-" " " = "a b-c".
Proof. reflexivity. Qed.

Example replace_without_occurrence : replace "abc" "-" " " = "abc".
Proof. reflexivity. Qed.

Example ownProperties_last_key_wins :
  ownProperties (JObject [("edition", JString "Developer"); ("edition", JString "Enterprise")])
  !! "edition" = Some (JString "Enterprise").
Proof. vm_compute. reflexivity. Qed.

Example ownProperties_of_array :
  ownProperties (JArray [JNull; JBool true]) !! "1" = Some (JBool true).
Proof. vm_compute. reflexivity. Qed.

Example spread_later_wins :
  spread {[ "edition" := JString "Developer" ]} {[ "edition" := JString "Enterprise" ]}
  !! "edition" = Some (JString "Enterprise").
Proof. vm_compute. reflexivity. Qed.

Lemma spread_empty (b : Obj) : spread ∅ b = b.
Proof. unfold spread. apply (right_id_L ∅ (∪)). Qed.

End JsFacts.

(* ===================================================================== *)
(** ** The capacity check                                                *)
(* ===================================================================== *)
Section CapacityFacts.
Import LimitTypes Runtime OrgUtils.

Lemma findLimit_absent (wanted : string) (entries : list (string * LimitValue)) :
  wanted ∉ entries.*1 -> findLimit wanted (asLimit <$> entries) = None.
Proof.
  induction entries as [|[k v] entries IH]; intros Hnot; [reflexivity|].
  rewrite fmap_cons, not_elem_of_cons in Hnot. destruct Hnot as [Hne Hrest].
  unfold findLimit in *. simpl.
  rewrite bool_decide_eq_false_2 by (simpl in Hne; congruence).
  by apply IH.
Qed.

Lemma findLimit_present (wanted : string) (v : LimitValue)
    (entries : list (string * LimitValue)) :
  NoDup entries.*1 -> (wanted, v) ∈ entries ->
  findLimit wanted (asLimit <$> entries) = Some (asLimit (wanted, v)).
Proof.
  induction entries as [|[k w] entries IH]; intros Hnd Hin.
  - by apply elem_of_nil in Hin.
  - rewrite fmap_cons in Hnd. apply NoDup_cons in Hnd as [Hfresh Hnd].
    unfold findLimit in *. simpl.
    apply elem_of_cons in Hin as [Heq|Hin].
    + injection Heq as <- <-. by rewrite bool_decide_eq_true_2.
    + rewrite bool_decide_eq_false_2; [by apply IH|].
      simpl. intros ->. apply Hfresh.
      apply list_elem_of_fmap. by exists (wanted, v).
Qed.

(** [find] over the entries of the response is a lookup in the response. *)
Lemma findLimit_toLimits (wanted : string) (result : LimitResult) :
  findLimit wanted (toLimits result) = (fun v => asLimit (wanted, v)) <$> result !! wanted.
Proof.
  unfold toLimits.
  destruct (result !! wanted) as [v|] eqn:Hlook; simpl.
  - apply findLimit_present.
    + apply NoDup_fst_map_to_list.
    + by apply elem_of_map_to_list.
  - apply findLimit_absent. intros Hin.
    apply list_elem_of_fmap in Hin as [[k v] [-> Hin]].
    apply elem_of_map_to_list in Hin. simpl in Hlook. congruence.
Qed.

Lemma remaining_absent (wanted : string) (result : LimitResult) :
  result !! wanted = None ->
  remainingOrZero (findLimit wanted (toLimits result)) = 0%Z.
Proof. intros H. by rewrite findLimit_toLimits, H. Qed.

Lemma canCreateFrom_true (result : LimitResult) :
  canCreateFrom (toLimits result) = true <-> hasCapacity result.
Proof.
  unfold canCreateFrom, hasCapacity. rewrite !findLimit_toLimits.
  rewrite andb_true_iff, !Z.ltb_lt. split.
  - intros [Ha Hd].
    destruct (result !! "ActiveScratchOrgs") as [a|]; simpl in Ha; [|lia].
    destruct (result !! "DailyScratchOrgs") as [d|]; simpl in Hd; [|lia].
    by exists a, d.
  - intros (a & d & -> & -> & Ha & Hd). by simpl.
Qed.

Lemma canCreateFrom_false (result : LimitResult) :
  ¬ hasCapacity result -> canCreateFrom (toLimits result) = false.
Proof.
  intros H. destruct (canCreateFrom (toLimits result)) eqn:E; [|done].
  by apply canCreateFrom_true in E.
Qed.

Context `{sdk : Sdk}.

Lemma canCreateScratchOrg_answered (connection : Connection) (result : LimitResult) :
  connection_request connection "/limits" = inr result ->
  canCreateScratchOrg connection
  = MkCmd [CallRequest connection "/limits"] (Returned (canCreateFrom (toLimits result))).
Proof.
  intros H. unfold canCreateScratchOrg, getApiLimits, await, settle. by rewrite H.
Qed.

(** C1. Whatever limits response the hub gives, [canCreateScratchOrg]
    returns (it does not throw), and it returns [true] exactly when both
    the [ActiveScratchOrgs] and the [DailyScratchOrgs] counter are in the
    response with a remaining value above zero. A counter that is absent
    counts as zero remaining, which makes the answer [false]. *)
Theorem canCreateScratchOrg_iff_both_remaining
    (connection : Connection) (result : LimitResult) :
  connection_request connection "/limits" = inr result ->
  exists answer : bool,
    outcome (canCreateScratchOrg connection) = Returned answer /\
    (answer = true <-> hasCapacity result) /\
    (forall counter, counter = "ActiveScratchOrgs" \/ counter = "DailyScratchOrgs" ->
       result !! counter = None ->
       remainingOrZero (findLimit counter (toLimits result)) = 0%Z /\ answer = false).
Proof.
  intros H. exists (canCreateFrom (toLimits result)).
  rewrite (canCreateScratchOrg_answered _ _ H). split; [reflexivity|].
  split; [apply canCreateFrom_true|].
  intros counter Hc Hnone. split; [by apply remaining_absent|].
  apply canCreateFrom_false. intros (a & d & Ha & Hd & _).
  destruct Hc as [-> | ->]; congruence.
Qed.

End CapacityFacts.

(* ===================================================================== *)
(** ** The flag table                                                    *)
(* ===================================================================== *)
Section FlagFacts.
Import OrgCreateScratch.

(** C7. The [parse] of the [edition] flag turns [partner-X] into
    [partner X], whatever [X] is (only the first hyphen becomes a space),
    and gives back unchanged every value that does not begin with
    [partner-]. *)
Theorem edition_parse_partner (X value : string) :
  edition_parse ("partner-" +:+ X) = "partner " +:+ X /\
  (startsWith value "partner-" = false -> edition_parse value = value).
Proof.
  split.
  - unfold edition_parse.
    rewrite (startsWith_append "partner-" X). reflexivity.
  - intros H. unfold edition_parse. by rewrite H.
Qed.

Lemma edition_parse_partner_witness :
  edition_parse "partner-developer" = "partner developer" /\
  edition_parse "partner-pre-release" = "partner pre-release" /\
  edition_parse "developer" = "developer".
Proof.
  split; [exact (proj1 (edition_parse_partner "developer" ""))|].
  split; [exact (proj1 (edition_parse_partner "pre-release" ""))|].
  exact (proj2 (edition_parse_partner "" "developer") eq_refl).
Defined.

(** The options of the flag either begin with [partner-] or do not: the
    two cases above leave nothing out. *)
Lemma edition_parse_cases (value : string) :
  (exists X, value = "partner-" +:+ X) \/ startsWith value "partner-" = false.
Proof.
  destruct (startsWith value "partner-") eqn:E; [left|by right].
  by apply startsWith_inv.
Qed.

End FlagFacts.

Section IdFlagFacts.
Import IdFlag OrgCreateScratch.

Lemma alnumRun_short (need : nat) (s : string) (run : nat) :
  (run + String.length s < need)%nat -> alnumRun need run s = false.
Proof.
  revert run. induction s as [|c s IH]; intros run H; simpl in *.
  - rewrite (proj2 (Nat.leb_gt need run)) by lia. reflexivity.
  - rewrite (proj2 (Nat.leb_gt need run)) by lia.
    destruct (isAlnum c); apply IH; lia.
Qed.

Lemma alnumRun_exact (need : nat) (s : string) (run : nat) :
  (run + String.length s = need)%nat ->
  alnumRun need run s = forallb isAlnum (String.list_ascii_of_string s).
Proof.
  revert run. induction s as [|c s IH]; intros run H; simpl in *.
  - rewrite (proj2 (Nat.leb_le need run)) by lia. reflexivity.
  - rewrite (proj2 (Nat.leb_gt need run)) by lia.
    destruct (isAlnum c); simpl.
    + apply IH. lia.
    + apply alnumRun_short. lia.
Qed.

(** Over any character-level test, the flag as configured lets through the
    inputs of length 15 that pass the test and begin with [00D], and
    returns them as they are. *)
Lemma source_org_parse_accepts (test : string -> bool) (input accepted : string) :
  source_org_parse test input = inr accepted <->
  accepted = input /\ String.length input = 15%nat /\
  test input = true /\ startsWith input "00D" = true.
Proof.
  unfold source_org_parse, validate, source_org_config, allowedIdLength.
  cbn [idLength idStartsWith].
  generalize (startsWith input "00D") as begins, (test input) as passes.
  intros begins passes.
  case_bool_decide as Hlen.
  - apply list_elem_of_singleton in Hlen.
    destruct passes, begins; cbn [negb]; split;
      first [ intros [= Heq]; by subst
            | intros (Heq & _ & ? & ?); by first [ discriminate | rewrite Heq ] ].
  - cbn [negb]. split; [intros [=]|]. intros (_ & Hl & _). exfalso. apply Hlen.
    rewrite Hl. apply list_elem_of_singleton. reflexivity.
Qed.

(** C9, as the code has it. The [source-org] flag is configured with
    [length: 15]: it accepts exactly the strings of 15 letters and digits
    that begin with [00D], and rejects every other value, those of 18
    characters included. *)
Theorem source_org_accepts_15_only (input : string) :
  (exists accepted, source_org_parse validateSalesforceId input = inr accepted) <->
  String.length input = 15%nat /\
  forallb isAlnum (String.list_ascii_of_string input) = true /\
  startsWith input "00D" = true.
Proof.
  split.
  - intros [accepted H]. apply source_org_parse_accepts in H as (_ & Hl & Hv & Hp).
    repeat split; try done.
    unfold validateSalesforceId in Hv. apply andb_true_iff in Hv as [Hv _].
    by rewrite (alnumRun_exact 15 input 0) in Hv by (simpl; lia).
  - intros (Hl & Ha & Hp). exists input.
    apply source_org_parse_accepts. repeat split; try done.
    unfold validateSalesforceId.
    rewrite (alnumRun_exact 15 input 0) by (simpl; lia).
    rewrite Ha, Hl. reflexivity.
Qed.

(** C9, as it is stated, fails: an id of 18 letters and digits beginning
    with [00D] has the 15/18-character shape, and the flag rejects it for
    its length. *)
Lemma source_org_rejects_18_characters :
  String.length "00D000000000000AAA" = 18%nat /\
  startsWith "00D000000000000AAA" "00D" = true /\
  validateSalesforceId "00D000000000000AAA" = true /\
  source_org_parse validateSalesforceId "00D000000000000AAA" = inl InvalidIdLength.
Proof. repeat split; vm_compute; reflexivity. Qed.

Example source_org_accepts_15_characters :
  source_org_parse validateSalesforceId "00D000000000000" = inr "00D000000000000".
Proof. vm_compute. reflexivity. Qed.

End IdFlagFacts.

(* ===================================================================== *)
(** ** The definition file and the flags laid over it                    *)
(* ===================================================================== *)
Section OrgConfigFacts.
Import Runtime OrgCreateScratch.

Lemma overlay_falsy (flag : option string) (key : string) :
  truthy flag = false -> overlay flag key = ∅.
Proof. destruct flag as [[|c s]|]; simpl; intros H; by try discriminate. Qed.

Lemma overlay_truthy (flag : option string) (key : string) :
  truthy flag = true -> exists v, flag = Some v /\ overlay flag key = {[ key := JString v ]}.
Proof. destruct flag as [[|c s]|]; simpl; intros H; try discriminate. by eexists. Qed.

Lemma overlay_other (flag : option string) (key k : string) :
  key ≠ k -> overlay flag key !! k = None.
Proof.
  intros Hne. destruct flag as [[|c s]|]; simpl; try apply lookup_empty.
  by apply lookup_singleton_ne.
Qed.

Lemma overlay_same_truthy (v : string) (key : string) :
  truthy (Some v) = true -> overlay (Some v) key !! key = Some (JString v).
Proof.
  intros H. destruct v as [|c s]; [discriminate|]. simpl. apply lookup_singleton_eq.
Qed.

Lemma overlay_same_falsy (flag : option string) (key : string) :
  truthy flag = false -> overlay flag key !! key = None.
Proof. intros H. rewrite overlay_falsy by done. apply lookup_empty. Qed.

(** One step of the object literal: a spread of an overlay that does not
    write [k] leaves [k] as it was. *)
Ltac skip_overlay :=
  rewrite spread_lookup_miss by (apply overlay_other; discriminate).

(** A key none of the seven overlays writes keeps the value of the
    definition file. *)
Lemma orgConfigOf_other_key (definition : Obj) (flags : Flag.Flags) (k : string) :
  (forall o, configKey o ≠ k) ->
  orgConfigOf definition flags !! k = definition !! k.
Proof.
  intros Hk. unfold orgConfigOf, spreadAll. cbn [fold_left].
  rewrite spread_lookup_miss by apply overlay_other, (Hk AdminEmail).
  rewrite spread_lookup_miss by apply overlay_other, (Hk SourceOrg).
  rewrite spread_lookup_miss by apply overlay_other, (Hk Release).
  rewrite spread_lookup_miss by apply overlay_other, (Hk Name).
  rewrite spread_lookup_miss by apply overlay_other, (Hk Description).
  rewrite spread_lookup_miss by apply overlay_other, (Hk Username).
  rewrite spread_lookup_miss by apply overlay_other, (Hk Edition).
  by rewrite spread_empty.
Qed.

(** The key of an overlay flag holds what that overlay wrote, or else what
    the definition file had. *)
Lemma orgConfigOf_overlay_key (definition : Obj) (flags : Flag.Flags) (o : OverlayFlag) :
  orgConfigOf definition flags !! configKey o =
  match overlay (flagValue o flags) (configKey o) !! configKey o with
  | Some v => Some v
  | None => definition !! configKey o
  end.
Proof.
  unfold orgConfigOf, spreadAll. cbn [fold_left].
  destruct o; cbn [configKey flagValue];
    repeat skip_overlay;
    match goal with
    | |- spread ?a (overlay ?f ?k) !! ?k = _ =>
        destruct (overlay f k !! k) as [v|] eqn:E;
        [ by apply spread_lookup_hit | rewrite (spread_lookup_miss _ _ _ E) ]
    end;
    repeat skip_overlay;
    by rewrite spread_empty.
Qed.

(** C5, as the code has it. The keys of the definition file are merged
    first. Every overlay flag (edition, username, description, name,
    release, source-org, admin-email) that is supplied with a non-empty
    value then overrides the key it corresponds to, whatever the file had
    there, and every key that no overlay flag corresponds to keeps the
    value of the file. *)
Theorem nonempty_flag_overrides_definition_file
    (definition : Obj) (flags : Flag.Flags) (o : OverlayFlag) (v : string) (k : string) :
  flagValue o flags = Some v -> v ≠ "" ->
  orgConfigOf definition flags !! configKey o = Some (JString v) /\
  ((forall o', configKey o' ≠ k) -> orgConfigOf definition flags !! k = definition !! k).
Proof.
  intros Hflag Hne. split.
  - rewrite orgConfigOf_overlay_key, Hflag.
    rewrite overlay_same_truthy; [done|]. by destruct v.
  - apply orgConfigOf_other_key.
Qed.

(** C10. An overlay flag whose value is the empty string, or that was not
    supplied, does not override anything: its key holds in [orgConfig]
    exactly what the definition file had for it (nothing, if the file had
    nothing). The test that guards each overlay is a truthiness test. *)
Theorem falsy_flag_keeps_definition_file
    (definition : Obj) (flags : Flag.Flags) (o : OverlayFlag) :
  flagValue o flags = Some "" \/ flagValue o flags = None ->
  truthy (flagValue o flags) = false /\
  orgConfigOf definition flags !! configKey o = definition !! configKey o.
Proof.
  intros H.
  assert (Hf : truthy (flagValue o flags) = false) by (destruct H as [-> | ->]; reflexivity).
  split; [exact Hf|].
  rewrite orgConfigOf_overlay_key. by rewrite overlay_same_falsy.
Qed.

End OrgConfigFacts.

(* ===================================================================== *)
(** ** The command monad                                                 *)
(* ===================================================================== *)
Section CmdFacts.
Import Runtime.
Context `{sdk : Sdk}.

Lemma bind_returned {A B} (m : Cmd A) (k : A -> Cmd B) (a : A) :
  outcome m = Returned a ->
  m ≫= k = MkCmd (effects m ++ effects (k a)) (outcome (k a)).
Proof. intros H. unfold mbind, cmd_bind. by rewrite H. Qed.

Lemma bind_threw {A B} (m : Cmd A) (k : A -> Cmd B) (e : Thrown) :
  outcome m = Threw e -> m ≫= k = MkCmd (effects m) (Threw e).
Proof. intros H. unfold mbind, cmd_bind. by rewrite H. Qed.

Lemma await_resolved {A} (call : Event) (s : Settled A) (a : A) :
  s = inr a -> await call s = MkCmd [call] (Returned a).
Proof. intros ->. reflexivity. Qed.

Lemma await_rejected {A} (call : Event) (s : Settled A) (e : Rejection) :
  s = inl e -> await call s = MkCmd [call] (Threw (Rejected e)).
Proof. intros ->. reflexivity. Qed.

Lemma cmd_eta {A} (m : Cmd A) : MkCmd (effects m) (outcome m) = m.
Proof. by destruct m. Qed.

End CmdFacts.

(* ===================================================================== *)
(** ** The choice of the dev hub                                         *)
(* ===================================================================== *)
Section HubFacts.
Import LimitTypes Runtime OrgUtils OrgCreateScratch.
Context `{sdk : Sdk}.

(** A hub without capacity is probed, with three calls, and the loop goes on. *)
Lemma selectDevHub_skip (hub : string) (connection : Connection) (limits : LimitResult) :
  reports hub connection limits -> ¬ hasCapacity limits ->
  exists probe,
    contacted probe = [hub] /\
    forall rest,
      selectDevHub (hub :: rest)
      = MkCmd (probe ++ effects (selectDevHub rest)) (outcome (selectDevHub rest)).
Proof.
  intros (authInfo & Hauth & Hconn & Hlim) Hnone.
  exists [CallAuthInfoCreate hub; CallConnectionCreate authInfo; CallRequest connection "/limits"].
  split; [reflexivity|]. intros rest.
  cbn [selectDevHub].
  rewrite (await_resolved _ _ _ Hauth), (bind_returned _ _ authInfo) by reflexivity.
  rewrite (await_resolved _ _ _ Hconn), (bind_returned _ _ connection) by reflexivity.
  rewrite (canCreateScratchOrg_answered _ _ Hlim), (bind_returned _ _ false)
    by (cbn [outcome]; by rewrite canCreateFrom_false).
  reflexivity.
Qed.

(** A hub with capacity is probed, its org is made, and the loop stops:
    what comes after it in the list plays no part. *)
Lemma selectDevHub_hit (hub : string) (connection : Connection) (limits : LimitResult) :
  reports hub connection limits -> hasCapacity limits ->
  exists probe,
    contacted probe = [hub] /\
    forall rest,
      selectDevHub (hub :: rest)
      = MkCmd (probe ++ [CallOrgCreate connection])
              (match Org_create connection with
               | inr org => Returned (Some org)
               | inl e => Threw (Rejected e)
               end).
Proof.
  intros (authInfo & Hauth & Hconn & Hlim) Hcap.
  exists [CallAuthInfoCreate hub; CallConnectionCreate authInfo; CallRequest connection "/limits"].
  split; [reflexivity|]. intros rest.
  cbn [selectDevHub].
  rewrite (await_resolved _ _ _ Hauth), (bind_returned _ _ authInfo) by reflexivity.
  rewrite (await_resolved _ _ _ Hconn), (bind_returned _ _ connection) by reflexivity.
  rewrite (canCreateScratchOrg_answered _ _ Hlim), (bind_returned _ _ true)
    by (cbn [outcome]; by rewrite (proj2 (canCreateFrom_true limits) Hcap)).
  by destruct (Org_create connection) as [e|org].
Qed.

Lemma contacted_app (t1 t2 : list Event) :
  contacted (t1 ++ t2) = contacted t1 ++ contacted t2.
Proof. apply omap_app. Qed.

(** The loop over hubs that all lack capacity runs through the whole list. *)
Lemma selectDevHub_exhausted (hubs : list string) :
  (forall v, v ∈ hubs -> exists c l, reports v c l /\ ¬ hasCapacity l) ->
  outcome (selectDevHub hubs) = Returned None /\
  contacted (effects (selectDevHub hubs)) = hubs.
Proof.
  induction hubs as [|hub rest IH]; intros Hall; [done|].
  destruct (Hall hub) as (c & l & Hrep & Hnone); [by left|].
  destruct (selectDevHub_skip _ _ _ Hrep Hnone) as (probe & Hprobe & Hstep).
  destruct IH as [IHo IHc]; [intros v Hv; apply Hall; by right|].
  rewrite Hstep. cbn [outcome effects].
  by rewrite contacted_app, Hprobe, IHc.
Qed.

Lemma selectDevHub_first_available
    (pre post : list string) (hub : string)
    (connection : Connection) (limits : LimitResult) (org : Org) :
  (forall v, v ∈ pre -> exists c l, reports v c l /\ ¬ hasCapacity l) ->
  reports hub connection limits -> hasCapacity limits ->
  Org_create connection = inr org ->
  outcome (selectDevHub (pre ++ hub :: post)) = Returned (Some org) /\
  contacted (effects (selectDevHub (pre ++ hub :: post))) = pre ++ [hub] /\
  selectDevHub (pre ++ hub :: post) = selectDevHub (pre ++ [hub]).
Proof.
  intros Hpre Hrep Hcap Horg.
  destruct (selectDevHub_hit _ _ _ Hrep Hcap) as (probe & Hprobe & Hhit).
  rewrite Horg in Hhit.
  induction pre as [|v pre IH]; cbn [app].
  - rewrite (Hhit post), (Hhit []). cbn [outcome effects].
    by rewrite contacted_app, Hprobe.
  - destruct (Hpre v) as (c & l & Hv & Hnone); [by left|].
    destruct (selectDevHub_skip _ _ _ Hv Hnone) as (skipped & Hskipped & Hstep).
    destruct IH as (IHo & IHc & IHe); [intros w Hw; apply Hpre; by right|].
    rewrite IHe in IHo, IHc.
    rewrite !Hstep. cbn [outcome effects].
    rewrite IHe, contacted_app, Hskipped, IHc, IHo. done.
Qed.

(** C2. Let entry [k] (counting from 1) of the list of candidate dev hubs
    be the first whose limits show capacity, every entry before it
    answering with limits that do not. The loop then returns the org made
    from the connection of entry [k]. It contacts the first [k] entries,
    each once and in the order of the list, and no entry after [k]: the
    run is the very run on the list cut after entry [k], so the entries
    after [k], and their quotas, play no part. *)
Theorem selectDevHub_returns_first_available
    (hubs : list string) (k : nat) (hub : string)
    (connection : Connection) (limits : LimitResult) (org : Org) :
  (1 <= k)%nat ->
  hubs !! (k - 1)%nat = Some hub ->
  (forall i v, (i < k - 1)%nat -> hubs !! i = Some v ->
     exists c l, reports v c l /\ ¬ hasCapacity l) ->
  reports hub connection limits -> hasCapacity limits ->
  Org_create connection = inr org ->
  outcome (selectDevHub hubs) = Returned (Some org) /\
  contacted (effects (selectDevHub hubs)) = take k hubs /\
  selectDevHub hubs = selectDevHub (take k hubs).
Proof.
  intros Hk Hat Hbefore Hrep Hcap Horg.
  assert (Hsplit : hubs = take (k - 1) hubs ++ hub :: drop k hubs).
  { rewrite <- (take_drop_middle hubs (k - 1) hub Hat) at 1.
    by replace (S (k - 1)) with k by lia. }
  assert (Htake : take k hubs = take (k - 1) hubs ++ [hub]).
  { replace k with (S (k - 1)) at 1 by lia. by apply take_S_r. }
  assert (Hpre : forall v, v ∈ take (k - 1) hubs ->
                   exists c l, reports v c l /\ ¬ hasCapacity l).
  { intros v Hv. apply list_elem_of_lookup in Hv as [i Hi].
    apply lookup_take_Some in Hi as [Hi Hlt]. by apply (Hbefore i v). }
  pose proof (selectDevHub_first_available _ (drop k hubs) _ _ _ _
                Hpre Hrep Hcap Horg) as Hloop.
  rewrite <- Hsplit in Hloop. by rewrite Htake.
Qed.

End HubFacts.

(* ===================================================================== *)
(** ** The run of the command                                            *)
(* ===================================================================== *)
Section RunFacts.
Import LimitTypes Runtime OrgUtils OrgCreateScratch.
Context `{sdk : Sdk}.

Lemma quiet_nil : quiet [].
Proof. done. Qed.

Lemma quiet_app (t1 t2 : list Event) : quiet t1 -> quiet t2 -> quiet (t1 ++ t2).
Proof.
  unfold quiet, passedDownstream, subscriptions. intros [H1 H2] [H3 H4].
  by rewrite !omap_app, H1, H2, H3, H4.
Qed.

Lemma quiet_bind {A B} (m : Cmd A) (k : A -> Cmd B) :
  quiet (effects m) -> (forall a, quiet (effects (k a))) -> quiet (effects (m ≫= k)).
Proof.
  intros Hm Hk. unfold mbind, cmd_bind.
  destruct (outcome m) as [a|e]; cbn [effects]; [|done].
  by apply quiet_app.
Qed.

Lemma quiet_settle {A} (s : Settled A) : quiet (effects (settle s)).
Proof. by destruct s. Qed.

Lemma quiet_await {A} (call : Event) (s : Settled A) :
  quiet [call] -> quiet (effects (await call s)).
Proof. intros H. by destruct s. Qed.

Ltac quiet_step :=
  first [ apply quiet_bind; [|intros ?]
        | apply quiet_await; done
        | apply quiet_settle
        | done ].

Lemma quiet_selectDevHub (hubs : list string) : quiet (effects (selectDevHub hubs)).
Proof.
  induction hubs as [|hub rest IH]; [done|].
  cbn [selectDevHub]. repeat quiet_step.
  match goal with |- context [if ?b then _ else _] => destruct b end;
    [repeat quiet_step | exact IH].
Qed.

Lemma quiet_prepare (flags : Flag.Flags) : quiet (effects (prepare flags)).
Proof.
  unfold prepare, resolveDevHub, assembleOptions.
  repeat quiet_step.
  - apply quiet_selectDevHub.
  - by repeat case_match.
  - repeat case_match; repeat quiet_step.
  - repeat case_match; repeat quiet_step.
  - repeat case_match; repeat quiet_step.
Qed.

Lemma listen_returns (baseUrl : string) (events : list ScratchOrgLifecycleEvent)
    (lastStatus : option string) :
  quiet (effects (listen baseUrl events lastStatus)) /\
  exists status, outcome (listen baseUrl events lastStatus) = Returned status.
Proof.
  revert lastStatus. induction events as [|data rest IH]; intros lastStatus.
  - split; [done|]. by eexists.
  - destruct (IH (Some (buildStatus data baseUrl))) as [Hq [status Hs]].
    cbn [listen]. split.
    + by repeat quiet_step.
    + exists status. by rewrite (bind_returned _ _ tt).
Qed.

Lemma quiet_outcome (flags : Flag.Flags) (lastStatus : option string)
    (settled : Settled (ScratchOrgCreateResult ScratchOrgInfo AuthFields)) :
  quiet (effects (tryCatch (onSettled flags lastStatus settled) (onError lastStatus))).
Proof.
  unfold tryCatch, onSettled, onError, settle.
  destruct settled as [e|result]; cbn.
  - repeat case_match; done.
  - destruct (result_scratchOrgInfo result); cbn; [by destruct (Flag.async flags)|].
    repeat case_match; done.
Qed.

(** The shape of [invoke]: what precedes the settling of the workflow calls
    it once, with the options it was given, and subscribes when the run is
    not asynchronous. *)
Lemma invoke_shape (flags : Flag.Flags) (baseUrl : string)
    (options : ScratchOrgCreateOptions Org) :
  exists before lastStatus,
    invoke flags baseUrl options
    = MkCmd (before ++ effects (tryCatch (onSettled flags lastStatus (scratchOrgCreate options).2)
                                         (onError lastStatus)))
            (outcome (tryCatch (onSettled flags lastStatus (scratchOrgCreate options).2)
                               (onError lastStatus))) /\
    passedDownstream before = [options] /\
    subscriptions before
    = (if Flag.async flags then [] else [scratchOrgLifecycleEventName]).
Proof.
  unfold invoke. destruct (Flag.async flags) eqn:Hasync; cbn [negb].
  - eexists [Log; SpinnerStart _; CallScratchOrgCreate options], None.
    repeat split.
  - destruct (listen_returns baseUrl (scratchOrgCreate options).1 None)
      as [[Hpassed Hsubs] [status Hstatus]].
    exists ([LifecycleOn scratchOrgLifecycleEventName baseUrl; Log;
             SpinnerStart "Creating Scratch Org"; CallScratchOrgCreate options]
            ++ effects (listen baseUrl (scratchOrgCreate options).1 None)), status.
    split; [|split].
    + rewrite (bind_returned (emit _) _ tt) by reflexivity.
      rewrite (bind_returned (emit Log) _ tt) by reflexivity.
      rewrite (bind_returned (emit (SpinnerStart _)) _ tt) by reflexivity.
      rewrite (bind_returned (emit (CallScratchOrgCreate _)) _ tt) by reflexivity.
      rewrite (bind_returned (listen _ _ _) _ status) by done.
      cbn [effects outcome emit]. by rewrite <- !app_assoc.
    + unfold passedDownstream in *. by rewrite omap_app, Hpassed.
    + unfold subscriptions in *. by rewrite omap_app, Hsubs.
Qed.

Lemma run_prepared (flags : Flag.Flags) (baseUrl : string)
    (options : ScratchOrgCreateOptions Org) :
  outcome (prepare flags) = Returned (baseUrl, options) ->
  run flags = MkCmd (effects (prepare flags) ++ effects (invoke flags baseUrl options))
                    (outcome (invoke flags baseUrl options)).
Proof. intros H. unfold run. by rewrite (bind_returned _ _ _ H). Qed.

End RunFacts.

Section RunClaims.
Import LimitTypes Runtime OrgUtils OrgCreateScratch.
Context `{sdk : Sdk}.

(** C3. When every candidate dev hub answers with limits that show no
    capacity, the run goes through the whole list, in order, and then
    throws the error the message registry makes for [noAvailableDevhubs].
    That error is not the rejection of any call to a candidate. The empty
    list is such a list. *)
Theorem run_no_available_devhubs (flags : Flag.Flags) :
  (forall v, v ∈ default [] (Flag.target_dev_hub flags) ->
     exists c l, reports v c l /\ ¬ hasCapacity l) ->
  outcome (run flags) = Threw (MessagesError "noAvailableDevhubs") /\
  contacted (effects (run flags)) = default [] (Flag.target_dev_hub flags) /\
  (forall e, outcome (run flags) ≠ Threw (Rejected e)).
Proof.
  intros Hall. destruct (selectDevHub_exhausted _ Hall) as [Hout Hcont].
  assert (Hrun : run flags
                 = MkCmd (effects (selectDevHub (default [] (Flag.target_dev_hub flags))))
                         (Threw (MessagesError "noAvailableDevhubs"))).
  { unfold run, prepare, resolveDevHub.
    rewrite (bind_returned (selectDevHub _) _ None Hout). cbn [effects outcome throw].
    rewrite app_nil_r. reflexivity. }
  rewrite Hrun. cbn [outcome effects]. by repeat split.
Qed.

(** C4. When the workflow rejects with the timeout error (an SfError named
    [ScratchOrgInfoTimeoutError]) whose data carries a job id, the command
    emits the resume message made from the binary name and that id, and
    ends with [this.error] under code and exit status 69. When it rejects
    with anything else, the command throws that very value. *)
Theorem run_timeout_exits_69 (flags : Flag.Flags) (baseUrl : string)
    (options : ScratchOrgCreateOptions Org) (error : Rejection) :
  outcome (prepare flags) = Returned (baseUrl, options) ->
  (scratchOrgCreate options).2 = inl error ->
  (forall id, isTimeoutError error ->
     errorData error = Some {| scratchOrgInfoId := Some id |} ->
     outcome (run flags)
     = Threw (CLIError "The scratch org did not complete within your wait time" "69" 69) /\
     last (effects (run flags))
     = Some (Info (getMessage "action.resume" [Some config_bin; Some id]))) /\
  (¬ isTimeoutError error -> outcome (run flags) = Threw (Rejected error)).
Proof.
  intros Hprep Hrej. rewrite (run_prepared _ _ _ Hprep). cbn [outcome effects].
  destruct (invoke_shape flags baseUrl options) as (before & lastStatus & -> & _ & _).
  cbn [outcome effects]. rewrite Hrej.
  unfold tryCatch, onSettled, onError, settle. cbn. split.
  - intros id [Hsf Hname] Hdata. rewrite Hsf, Hname, Hdata.
    rewrite bool_decide_eq_true_2 by done. cbn.
    split; [reflexivity|].
    rewrite cons_middle, !app_assoc. apply last_snoc.
  - intros Hnot. destruct (instanceofSfError error) eqn:Hsf; [|done].
    case_bool_decide as Hname; [|done]. by destruct Hnot.
Qed.

(** The wait is fixed where the options are assembled. *)
Lemma prepare_wait (flags : Flag.Flags) (baseUrl : string)
    (options : ScratchOrgCreateOptions Org) :
  outcome (prepare flags) = Returned (baseUrl, options) ->
  wait options = (if Flag.async flags then Duration_minutes 0 else Flag.wait flags).
Proof.
  intros Hprep. unfold prepare in Hprep.
  destruct (outcome (resolveDevHub flags)) as [org|e] eqn:Hres;
    [rewrite (bind_returned _ _ _ Hres) in Hprep|by rewrite (bind_threw _ _ _ Hres) in Hprep].
  cbn [outcome] in Hprep. unfold assembleOptions in Hprep.
  repeat match type of Hprep with
  | outcome (?m ≫= _) = _ =>
      let a := fresh "a" in let E := fresh "E" in
      destruct (outcome m) as [a|?] eqn:E;
      [rewrite (bind_returned _ _ _ E) in Hprep; cbn [outcome] in Hprep
      |by rewrite (bind_threw _ _ _ E) in Hprep]
  end.
  by injection Hprep as _ <-.
Qed.

(** A run that gets to the workflow calls it once and subscribes, or not,
    by the [async] flag. *)
Lemma run_trace_prepared (flags : Flag.Flags) (baseUrl : string)
    (options : ScratchOrgCreateOptions Org) :
  outcome (prepare flags) = Returned (baseUrl, options) ->
  passedDownstream (effects (run flags)) = [options] /\
  subscriptions (effects (run flags))
  = (if Flag.async flags then [] else [scratchOrgLifecycleEventName]).
Proof.
  intros Hprep. rewrite (run_prepared _ _ _ Hprep). cbn [effects].
  destruct (invoke_shape flags baseUrl options) as (before & lastStatus & -> & Hpassed & Hsubs).
  cbn [effects].
  destruct (quiet_prepare flags) as [Hp1 Hp2].
  destruct (quiet_outcome flags lastStatus (scratchOrgCreate options).2) as [Ho1 Ho2].
  unfold passedDownstream, subscriptions in *.
  by rewrite !omap_app, Hp1, Hp2, Ho1, Ho2, Hpassed, Hsubs, !app_nil_r.
Qed.

(** A run that does not get to the workflow neither calls it nor subscribes. *)
Lemma run_trace_unprepared (flags : Flag.Flags) (e : Thrown) :
  outcome (prepare flags) = Threw e -> quiet (effects (run flags)).
Proof.
  intros Hprep. unfold run. rewrite (bind_threw _ _ _ Hprep). cbn [effects].
  apply quiet_prepare.
Qed.

(** X22. Under [async] no run subscribes, however far it gets, and the
    workflow never sees a wait other than zero minutes. *)
Lemma run_async_never_subscribes (flags : Flag.Flags) :
  Flag.async flags = true ->
  subscriptions (effects (run flags)) = [] /\
  (forall options, options ∈ passedDownstream (effects (run flags)) ->
     wait options = Duration_minutes 0).
Proof.
  intros Hasync. destruct (outcome (prepare flags)) as [[baseUrl options]|e] eqn:Hprep.
  - destruct (run_trace_prepared _ _ _ Hprep) as [-> ->]. rewrite Hasync.
    split; [done|]. intros o Ho. apply list_elem_of_singleton in Ho as ->.
    by rewrite (prepare_wait _ _ _ Hprep), Hasync.
  - destruct (run_trace_unprepared _ _ Hprep) as [-> ->].
    split; [done|]. intros o Ho. by apply elem_of_nil in Ho.
Qed.

(** C6. With [async] set, the workflow is given a wait of zero minutes and
    the run subscribes to no lifecycle event; without it, the workflow is
    given the value of the [wait] flag and the run subscribes, once, to the
    scratch-org lifecycle event. The workflow is called once, with the
    options assembled. *)
Theorem run_async_wait_and_subscription (flags : Flag.Flags) (baseUrl : string)
    (options : ScratchOrgCreateOptions Org) :
  outcome (prepare flags) = Returned (baseUrl, options) ->
  passedDownstream (effects (run flags)) = [options] /\
  wait options = (if Flag.async flags then Duration_minutes 0 else Flag.wait flags) /\
  subscriptions (effects (run flags))
  = (if Flag.async flags then [] else [scratchOrgLifecycleEventName]).
Proof.
  intros Hprep. destruct (run_trace_prepared _ _ _ Hprep) as [Hpassed Hsubs].
  split; [exact Hpassed|]. split; [by apply (prepare_wait _ baseUrl)|exact Hsubs].
Qed.

(** C8. When the workflow resolves without scratch-org info, the command
    throws [new SfError('The scratch org did not return with any
    information')] and returns nothing; when the info is there, it returns
    the record of username, scratchOrgInfo, authFields, warnings and
    orgId, the org id being that of the auth fields. *)
Theorem run_requires_scratchOrgInfo (flags : Flag.Flags) (baseUrl : string)
    (options : ScratchOrgCreateOptions Org)
    (result : ScratchOrgCreateResult ScratchOrgInfo AuthFields) :
  outcome (prepare flags) = Returned (baseUrl, options) ->
  (scratchOrgCreate options).2 = inr result ->
  outcome (run flags)
  = match result_scratchOrgInfo result with
    | None => Threw (NewSfError "The scratch org did not return with any information")
    | Some info =>
        Returned {| username := result_username result;
                    scratchOrgInfo := Some info;
                    authFields := result_authFields result;
                    warnings := result_warnings result;
                    orgId := result_authFields result ≫= AuthFields_orgId |}
    end.
Proof.
  intros Hprep Hres. rewrite (run_prepared _ _ _ Hprep). cbn [outcome].
  destruct (invoke_shape flags baseUrl options) as (before & lastStatus & -> & _ & _).
  cbn [outcome]. rewrite Hres.
  unfold tryCatch, onSettled, onError, settle.
  destruct result as [user [info|] fields notes]; cbn.
  - by destruct (Flag.async flags).
  - reflexivity.
Qed.

End RunClaims.

(* ===================================================================== *)
(** ** The statements at work in the small world                         *)
(* ===================================================================== *)
Section Runs.
Import LimitTypes Runtime OrgUtils OrgCreateScratch.

Lemma hubA_reports : @reports Demo.sdk "hubA" "hubA" (Demo.limitsOf "hubA").
Proof. by exists "hubA". Defined.

Lemma hubB_reports : @reports Demo.sdk "hubB" "hubB" (Demo.limitsOf "hubB").
Proof. by exists "hubB". Defined.

Lemma hubC_reports : @reports Demo.sdk "hubC" "hubC" (Demo.limitsOf "hubC").
Proof. by exists "hubC". Defined.

Lemma hubA_without_capacity : ¬ hasCapacity (Demo.limitsOf "hubA").
Proof. intros (a & d & _ & Hd & _). vm_compute in Hd. discriminate. Defined.

Lemma hubC_without_capacity : ¬ hasCapacity (Demo.limitsOf "hubC").
Proof. intros (a & d & _ & Hd & _). vm_compute in Hd. discriminate. Defined.

Lemma hubB_with_capacity : hasCapacity (Demo.limitsOf "hubB").
Proof.
  exists {| Max := 3; Remaining := 3 |}, {| Max := 6; Remaining := 1 |}.
  repeat split; vm_compute; reflexivity.
Defined.

(** The example of the specification: [hubA] reports no remaining active
    scratch org and no daily counter, [hubB] reports both; [hubB] is taken. *)
Example selector_returns_hubB :
  outcome (@selectDevHub Demo.sdk ["hubA"; "hubB"]) = Returned (Some "hubB") /\
  contacted (effects (@selectDevHub Demo.sdk ["hubA"; "hubB"])) = ["hubA"; "hubB"].
Proof. split; vm_compute; reflexivity. Qed.

Example timed_out_run_ends_with_the_resume_hint :
  last (effects (@run Demo.sdk (Demo.flagsWith "slow" None false)))
  = Some (Info "action.resume:sf,2SR000000000001").
Proof. vm_compute. reflexivity. Qed.

Lemma canCreateScratchOrg_iff_both_remaining_witness :
  exists answer : bool,
    outcome (@canCreateScratchOrg Demo.sdk "hubA") = Returned answer /\
    (answer = true <-> hasCapacity (Demo.limitsOf "hubA")) /\
    (forall counter, counter = "ActiveScratchOrgs" \/ counter = "DailyScratchOrgs" ->
       Demo.limitsOf "hubA" !! counter = None ->
       remainingOrZero (findLimit counter (toLimits (Demo.limitsOf "hubA"))) = 0%Z /\
       answer = false).
Proof.
  apply (@canCreateScratchOrg_iff_both_remaining Demo.sdk "hubA" (Demo.limitsOf "hubA")).
  reflexivity.
Defined.

Lemma selectDevHub_returns_first_available_witness :
  outcome (@selectDevHub Demo.sdk ["hubA"; "hubB"; "hubC"]) = Returned (Some "hubB") /\
  contacted (effects (@selectDevHub Demo.sdk ["hubA"; "hubB"; "hubC"]))
  = take 2 ["hubA"; "hubB"; "hubC"] /\
  @selectDevHub Demo.sdk ["hubA"; "hubB"; "hubC"]
  = @selectDevHub Demo.sdk (take 2 ["hubA"; "hubB"; "hubC"]).
Proof.
  apply (@selectDevHub_returns_first_available Demo.sdk
           ["hubA"; "hubB"; "hubC"] 2 "hubB" "hubB" (Demo.limitsOf "hubB") "hubB").
  - lia.
  - reflexivity.
  - intros i v Hi Hv. destruct i as [|i]; [|lia].
    injection Hv as <-. exists "hubA", (Demo.limitsOf "hubA").
    split; [exact hubA_reports | exact hubA_without_capacity].
  - exact hubB_reports.
  - exact hubB_with_capacity.
  - reflexivity.
Defined.

Lemma run_no_available_devhubs_witness :
  outcome (@run Demo.sdk Demo.flagsOnHubA) = Threw (MessagesError "noAvailableDevhubs") /\
  contacted (effects (@run Demo.sdk Demo.flagsOnHubA)) = ["hubA"; "hubC"] /\
  (forall e, outcome (@run Demo.sdk Demo.flagsOnHubA) ≠ Threw (Rejected e)).
Proof.
  apply (@run_no_available_devhubs Demo.sdk Demo.flagsOnHubA).
  intros v Hv. cbn in Hv.
  apply elem_of_cons in Hv as [->|Hv].
  - exists "hubA", (Demo.limitsOf "hubA").
    split; [exact hubA_reports | exact hubA_without_capacity].
  - apply list_elem_of_singleton in Hv as ->.
    exists "hubC", (Demo.limitsOf "hubC").
    split; [exact hubC_reports | exact hubC_without_capacity].
Defined.

Lemma run_timeout_exits_69_witness :
  (outcome (@run Demo.sdk (Demo.flagsWith "slow" None false))
   = Threw (CLIError "The scratch org did not complete within your wait time" "69" 69) /\
   last (effects (@run Demo.sdk (Demo.flagsWith "slow" None false)))
   = Some (Info (@getMessage Demo.sdk "action.resume" [Some "sf"; Some "2SR000000000001"]))) /\
  outcome (@run Demo.sdk (Demo.flagsWith "refused" None false))
  = Threw (Rejected Demo.signupError).
Proof.
  split.
  - apply (proj1 (@run_timeout_exits_69 Demo.sdk (Demo.flagsWith "slow" None false)
                    "https://hubB" (Demo.optionsWith "slow" None false) Demo.timeoutError
                    ltac:(vm_compute; reflexivity) ltac:(vm_compute; reflexivity))
                 "2SR000000000001").
    + split; reflexivity.
    + reflexivity.
  - apply (proj2 (@run_timeout_exits_69 Demo.sdk (Demo.flagsWith "refused" None false)
                    "https://hubB" (Demo.optionsWith "refused" None false) Demo.signupError
                    ltac:(vm_compute; reflexivity) ltac:(vm_compute; reflexivity))).
    intros [_ Hname]. vm_compute in Hname. discriminate.
Defined.

Lemma run_async_wait_and_subscription_witness :
  (passedDownstream (effects (@run Demo.sdk (Demo.flagsWith "dev" None true)))
   = [Demo.optionsWith "dev" None true] /\
   wait (Demo.optionsWith "dev" None true) = Duration_minutes 0 /\
   subscriptions (effects (@run Demo.sdk (Demo.flagsWith "dev" None true))) = []) /\
  (passedDownstream (effects (@run Demo.sdk (Demo.flagsWith "dev" None false)))
   = [Demo.optionsWith "dev" None false] /\
   wait (Demo.optionsWith "dev" None false) = Duration_minutes 5 /\
   subscriptions (effects (@run Demo.sdk (Demo.flagsWith "dev" None false)))
   = ["scratchOrgLifecycleEvent"]).
Proof.
  split.
  - apply (@run_async_wait_and_subscription Demo.sdk (Demo.flagsWith "dev" None true)
             "https://hubB" (Demo.optionsWith "dev" None true)).
    vm_compute. reflexivity.
  - apply (@run_async_wait_and_subscription Demo.sdk (Demo.flagsWith "dev" None false)
             "https://hubB" (Demo.optionsWith "dev" None false)).
    vm_compute. reflexivity.
Defined.

Lemma run_requires_scratchOrgInfo_witness :
  outcome (@run Demo.sdk (Demo.flagsWith "hollow" None false))
  = Threw (NewSfError "The scratch org did not return with any information") /\
  outcome (@run Demo.sdk (Demo.flagsWith "dev" None false))
  = Returned {| username := Some "test-1@example.com";
                scratchOrgInfo := Some "2SR000000000001";
                authFields := Some "00D000000000001";
                warnings := [];
                orgId := Some "00D000000000001" |}.
Proof.
  split.
  - apply (@run_requires_scratchOrgInfo Demo.sdk (Demo.flagsWith "hollow" None false)
             "https://hubB" (Demo.optionsWith "hollow" None false) Demo.hollow).
    + vm_compute. reflexivity.
    + vm_compute. reflexivity.
  - apply (@run_requires_scratchOrgInfo Demo.sdk (Demo.flagsWith "dev" None false)
             "https://hubB" (Demo.optionsWith "dev" None false) Demo.created).
    + vm_compute. reflexivity.
    + vm_compute. reflexivity.
Defined.

Lemma nonempty_flag_overrides_definition_file_witness :
  orgConfigOf (ownProperties Demo.definitionJson)
              (Demo.flagsWith "dev" (Some "from the flag") false) !! "description"
  = Some (JString "from the flag") /\
  orgConfigOf (ownProperties Demo.definitionJson)
              (Demo.flagsWith "dev" (Some "from the flag") false) !! "hasSampleData"
  = ownProperties Demo.definitionJson !! "hasSampleData".
Proof.
  destruct (nonempty_flag_overrides_definition_file
              (ownProperties Demo.definitionJson)
              (Demo.flagsWith "dev" (Some "from the flag") false)
              Description "from the flag" "hasSampleData"
              eq_refl ltac:(discriminate)) as [Hflag Hfile].
  split; [exact Hflag|]. apply Hfile. intros []; discriminate.
Defined.

(** C5, as it is stated, fails: [--description] with the empty string is an explicitly
    supplied flag, and the description of the definition file stays. *)
Lemma empty_flag_does_not_override :
  flagValue Description (Demo.flagsWith "dev" (Some "") false) = Some "" /\
  ownProperties Demo.definitionJson !! configKey Description
  = Some (JString "from the file") /\
  orgConfigOf (ownProperties Demo.definitionJson)
              (Demo.flagsWith "dev" (Some "") false) !! configKey Description
  = Some (JString "from the file") /\
  orgConfigOf (ownProperties Demo.definitionJson)
              (Demo.flagsWith "dev" (Some "") false) !! configKey Description
  ≠ Some (JString "").
Proof.
  split; [reflexivity|]. split; [vm_compute; reflexivity|].
  split; [vm_compute; reflexivity|].
  vm_compute. discriminate.
Qed.

Lemma falsy_flag_keeps_definition_file_witness :
  truthy (flagValue Description (Demo.flagsWith "dev" (Some "") false)) = false /\
  orgConfigOf (ownProperties Demo.definitionJson)
              (Demo.flagsWith "dev" (Some "") false) !! configKey Description
  = ownProperties Demo.definitionJson !! configKey Description.
Proof.
  apply (falsy_flag_keeps_definition_file
           (ownProperties Demo.definitionJson)
           (Demo.flagsWith "dev" (Some "") false) Description).
  left. reflexivity.
Defined.

End Runs.

(* ===================================================================== *)
(** ** More on the capacity helper                                       *)
(* ===================================================================== *)
Section LimitsMore.
Import LimitTypes Runtime OrgUtils.
Context `{sdk : Sdk}.

(** X1. [getApiLimits] keeps every counter of the response and invents
    none: it returns one limit per counter, each name once, and a limit
    [{ name, max, remaining }] is in the list exactly when the response
    has [{ Max: max, Remaining: remaining }] under [name]. *)
Theorem getApiLimits_keeps_every_counter
    (connection : Connection) (result : LimitResult) :
  connection_request connection "/limits" = inr result ->
  exists limits,
    outcome (getApiLimits connection) = Returned limits /\
    length limits = size result /\
    NoDup (name <$> limits) /\
    (forall n mx r,
       {| name := n; max := mx; remaining := r |} ∈ limits <->
       result !! n = Some {| Max := mx; Remaining := r |}).
Proof.
  intros H. exists (toLimits result).
  unfold getApiLimits, await, settle. rewrite H. split; [reflexivity|].
  unfold toLimits. split; [|split].
  - by rewrite length_fmap, length_map_to_list.
  - rewrite <- list_fmap_compose.
    replace (name ∘ asLimit) with (@fst string LimitValue) by reflexivity.
    apply NoDup_fst_map_to_list.
  - intros n mx r. rewrite list_elem_of_fmap. split.
    + intros ([k [m rem]] & Heq & Hin). injection Heq as -> -> ->.
      by apply elem_of_map_to_list in Hin.
    + intros Hlook. exists (n, {| Max := mx; Remaining := r |}).
      split; [reflexivity|]. by apply elem_of_map_to_list.
Qed.

(** X2. A limits request that is rejected is not an answer of "no
    capacity": [getApiLimits] and [canCreateScratchOrg] both throw what the
    request was rejected with, after that one call. *)
Theorem canCreateScratchOrg_rethrows_rejection
    (connection : Connection) (e : Rejection) :
  connection_request connection "/limits" = inl e ->
  getApiLimits connection
  = MkCmd [CallRequest connection "/limits"] (Threw (Rejected e)) /\
  canCreateScratchOrg connection
  = MkCmd [CallRequest connection "/limits"] (Threw (Rejected e)).
Proof.
  intros H. unfold canCreateScratchOrg, getApiLimits, await, settle.
  rewrite H. split; reflexivity.
Qed.

(** X3. The answer of [canCreateScratchOrg] looks at nothing but the
    remaining values of the two scratch-org counters: two hubs whose
    responses agree on these get the same answer, whatever their maxima
    and their other counters are. *)
Theorem canCreateScratchOrg_reads_two_remaining_values
    (c1 c2 : Connection) (r1 r2 : LimitResult) :
  connection_request c1 "/limits" = inr r1 ->
  connection_request c2 "/limits" = inr r2 ->
  Remaining <$> r1 !! "ActiveScratchOrgs" = Remaining <$> r2 !! "ActiveScratchOrgs" ->
  Remaining <$> r1 !! "DailyScratchOrgs" = Remaining <$> r2 !! "DailyScratchOrgs" ->
  outcome (canCreateScratchOrg c1) = outcome (canCreateScratchOrg c2).
Proof.
  intros H1 H2 Ha Hd.
  rewrite (canCreateScratchOrg_answered _ _ H1), (canCreateScratchOrg_answered _ _ H2).
  cbn [outcome]. f_equal. unfold canCreateFrom. rewrite !findLimit_toLimits.
  destruct (r1 !! "ActiveScratchOrgs") as [a1|], (r2 !! "ActiveScratchOrgs") as [a2|];
    try discriminate;
    destruct (r1 !! "DailyScratchOrgs") as [d1|], (r2 !! "DailyScratchOrgs") as [d2|];
    try discriminate; cbn in *; congruence.
Qed.

End LimitsMore.

Section LimitsMoreRuns.
Import LimitTypes Runtime OrgUtils.

Lemma getApiLimits_keeps_every_counter_witness :
  exists limits,
    outcome (@getApiLimits Demo.sdk "hubB") = Returned limits /\
    length limits = size (Demo.limitsOf "hubB") /\
    NoDup (name <$> limits) /\
    (forall n mx r,
       {| name := n; max := mx; remaining := r |} ∈ limits <->
       Demo.limitsOf "hubB" !! n = Some {| Max := mx; Remaining := r |}).
Proof.
  apply (@getApiLimits_keeps_every_counter Demo.sdk "hubB" (Demo.limitsOf "hubB")).
  reflexivity.
Defined.

Lemma canCreateScratchOrg_rethrows_rejection_witness :
  @getApiLimits Outage.sdk "hubMute"
  = MkCmd [CallRequest ("hubMute" : @Connection Outage.sdk) "/limits"]
          (Threw (Rejected Outage.limitsError)) /\
  @canCreateScratchOrg Outage.sdk "hubMute"
  = MkCmd [CallRequest ("hubMute" : @Connection Outage.sdk) "/limits"]
          (Threw (Rejected Outage.limitsError)).
Proof.
  apply (@canCreateScratchOrg_rethrows_rejection Outage.sdk "hubMute" Outage.limitsError).
  reflexivity.
Defined.

Lemma canCreateScratchOrg_reads_two_remaining_values_witness :
  outcome (@canCreateScratchOrg Outage.sdk "hubB")
  = outcome (@canCreateScratchOrg Outage.sdk "hubBig").
Proof.
  apply (@canCreateScratchOrg_reads_two_remaining_values Outage.sdk "hubB" "hubBig"
           (Outage.limitsOf "hubB") (Outage.limitsOf "hubBig")).
  - reflexivity.
  - reflexivity.
  - vm_compute. reflexivity.
  - vm_compute. reflexivity.
Defined.

End LimitsMoreRuns.

(* ===================================================================== *)
(** ** More on the flag table and on [orgConfig]                         *)
(* ===================================================================== *)
Section FlagsMore.
Import Runtime OrgCreateScratch.

Lemma partner_space_is_not_partner_hyphen (X : string) :
  startsWith ("partner " +:+ X) "partner-" = false.
Proof. reflexivity. Qed.

Lemma edition_parse_of_partner (X : string) :
  edition_parse ("partner-" +:+ X) = "partner " +:+ X.
Proof.
  unfold edition_parse. rewrite (startsWith_append "partner-" X). reflexivity.
Qed.

(** X4. The [parse] of the [edition] flag keeps the length of the value,
    its result never begins with [partner-], and parsing a parsed value
    changes nothing. *)
Theorem edition_parse_idempotent (value : string) :
  String.length (edition_parse value) = String.length value /\
  startsWith (edition_parse value) "partner-" = false /\
  edition_parse (edition_parse value) = edition_parse value.
Proof.
  destruct (startsWith value "partner-") eqn:E.
  - apply startsWith_inv in E as [X ->]. rewrite edition_parse_of_partner.
    split; [reflexivity|]. split; [reflexivity|].
    unfold edition_parse. by rewrite partner_space_is_not_partner_hyphen.
  - unfold edition_parse. rewrite E. split; [reflexivity|]. split; [exact E|].
    by rewrite E.
Qed.

Lemma configKey_inj (o o' : OverlayFlag) : configKey o = configKey o' -> o = o'.
Proof. destruct o, o'; intros H; try reflexivity; discriminate H. Qed.

Lemma configKey_cases (k : string) :
  (exists o, configKey o = k) \/ (forall o, configKey o ≠ k).
Proof.
  destruct (decide (k = "edition")) as [->|]; [left; by exists Edition|].
  destruct (decide (k = "username")) as [->|]; [left; by exists Username|].
  destruct (decide (k = "description")) as [->|]; [left; by exists Description|].
  destruct (decide (k = "orgName")) as [->|]; [left; by exists Name|].
  destruct (decide (k = "release")) as [->|]; [left; by exists Release|].
  destruct (decide (k = "sourceOrg")) as [->|]; [left; by exists SourceOrg|].
  destruct (decide (k = "adminEmail")) as [->|]; [left; by exists AdminEmail|].
  right. intros []; cbn; congruence.
Qed.

(** X5. [orgConfig] has the keys of the definition file and the keys of
    the overlay flags that were given a non-empty value, and no other key:
    nothing of the file is dropped, and a flag that was not given (or was
    given empty) adds no key. *)
Theorem orgConfig_keys (definition : Obj) (flags : Flag.Flags) (k : string) :
  is_Some (orgConfigOf definition flags !! k) <->
  is_Some (definition !! k) \/
  (exists o, configKey o = k /\ truthy (flagValue o flags) = true).
Proof.
  destruct (configKey_cases k) as [[o <-]|Hother].
  - rewrite orgConfigOf_overlay_key.
    destruct (truthy (flagValue o flags)) eqn:T.
    + destruct (flagValue o flags) as [v|] eqn:F; [|discriminate].
      rewrite overlay_same_truthy by done. split; [|by eexists].
      intros _. right. exists o. by rewrite F.
    + rewrite overlay_same_falsy by done. split; [by left|].
      intros [H|(o' & Heq & T')]; [done|].
      apply configKey_inj in Heq as ->. congruence.
  - rewrite orgConfigOf_other_key by done. split; [by left|].
    intros [H|(o & Heq & _)]; [done|]. by destruct (Hother o).
Qed.

(** X6. Every value an overlay flag puts into [orgConfig] is the string of
    the flag: where [orgConfig] differs from the definition file, it holds
    a non-empty flag value under that flag's key. *)
Theorem orgConfig_differs_only_by_flags
    (definition : Obj) (flags : Flag.Flags) (k : string) :
  orgConfigOf definition flags !! k ≠ definition !! k ->
  exists o v,
    configKey o = k /\ flagValue o flags = Some v /\ v ≠ "" /\
    orgConfigOf definition flags !! k = Some (JString v).
Proof.
  intros Hdiff. destruct (configKey_cases k) as [[o <-]|Hother].
  - rewrite orgConfigOf_overlay_key in *.
    destruct (truthy (flagValue o flags)) eqn:T.
    + destruct (flagValue o flags) as [v|] eqn:F; [|discriminate].
      rewrite overlay_same_truthy in * by done.
      exists o, v. repeat split; try done. by intros ->.
    + by rewrite overlay_same_falsy in Hdiff.
  - by rewrite orgConfigOf_other_key in Hdiff.
Qed.

Lemma orgConfig_differs_only_by_flags_witness :
  exists o v,
    configKey o = "orgName" /\
    flagValue o (Demo.flagsWith "dev" None false) = Some v /\ v ≠ "" /\
    orgConfigOf (ownProperties Demo.definitionJson) (Demo.flagsWith "dev" None false)
      !! "orgName" = Some (JString v).
Proof.
  apply (orgConfig_differs_only_by_flags
           (ownProperties Demo.definitionJson) (Demo.flagsWith "dev" None false) "orgName").
  vm_compute. discriminate.
Defined.

End FlagsMore.

(* ===================================================================== *)
(** ** More on the choice of the dev hub                                 *)
(* ===================================================================== *)
Section HubsMore.
Import LimitTypes Runtime OrgUtils OrgCreateScratch Observed.
Context `{sdk : Sdk}.

Lemma orgsCreated_app (t1 t2 : list Event) :
  orgsCreated (t1 ++ t2) = orgsCreated t1 ++ orgsCreated t2.
Proof. apply omap_app. Qed.

(** The hubs without capacity at the head of the list are probed and
    passed over, no org being made. *)
Lemma selectDevHub_skip_all (pre : list string) :
  (forall v, v ∈ pre -> exists c l, reports v c l /\ ¬ hasCapacity l) ->
  exists probes,
    contacted probes = pre /\ orgsCreated probes = [] /\
    forall rest,
      selectDevHub (pre ++ rest)
      = MkCmd (probes ++ effects (selectDevHub rest)) (outcome (selectDevHub rest)).
Proof.
  induction pre as [|v pre IH]; intros Hpre.
  - exists []. repeat split. intros rest. cbn [app]. by rewrite cmd_eta.
  - destruct (Hpre v) as (c & l & (a & Ha & Hc & Hl) & Hnone); [by left|].
    destruct IH as (probes & Hcont & Horgs & Hstep); [intros w Hw; apply Hpre; by right|].
    exists ([CallAuthInfoCreate v; CallConnectionCreate a; CallRequest c "/limits"] ++ probes).
    split; [by rewrite contacted_app, Hcont|].
    split; [by rewrite orgsCreated_app, Horgs|].
    intros rest. cbn [app selectDevHub].
    rewrite (await_resolved _ _ _ Ha), (bind_returned _ _ a) by reflexivity.
    rewrite (await_resolved _ _ _ Hc), (bind_returned _ _ c) by reflexivity.
    rewrite (canCreateScratchOrg_answered _ _ Hl), (bind_returned _ _ false)
      by (cbn [outcome]; by rewrite canCreateFrom_false).
    rewrite Hstep. reflexivity.
Qed.

(** A hub whose probe is rejected ends the loop. *)
Lemma selectDevHub_unreachable (hub : string) (e : Rejection) :
  unreachable hub e ->
  exists probe,
    contacted probe = [hub] /\ orgsCreated probe = [] /\
    forall rest, selectDevHub (hub :: rest) = MkCmd probe (Threw (Rejected e)).
Proof.
  intros [Ha|(a & Ha & [Hc|(c & Hc & Hl)])].
  - exists [CallAuthInfoCreate hub]. repeat split. intros rest. cbn [selectDevHub].
    by rewrite (await_rejected _ _ _ Ha), (bind_threw _ _ (Rejected e)).
  - exists [CallAuthInfoCreate hub; CallConnectionCreate a]. repeat split.
    intros rest. cbn [selectDevHub].
    rewrite (await_resolved _ _ _ Ha), (bind_returned _ _ a) by reflexivity.
    by rewrite (await_rejected _ _ _ Hc), (bind_threw _ _ (Rejected e)).
  - exists [CallAuthInfoCreate hub; CallConnectionCreate a; CallRequest c "/limits"].
    repeat split. intros rest. cbn [selectDevHub].
    rewrite (await_resolved _ _ _ Ha), (bind_returned _ _ a) by reflexivity.
    rewrite (await_resolved _ _ _ Hc), (bind_returned _ _ c) by reflexivity.
    unfold canCreateScratchOrg, getApiLimits.
    rewrite (await_rejected _ _ _ Hl).
    by rewrite (bind_threw _ _ (Rejected e)), (bind_threw _ _ (Rejected e)),
               (bind_threw _ _ (Rejected e)).
Qed.

(** A run whose loop throws ends there, with what the loop threw. *)
Lemma run_hub_failure (flags : Flag.Flags) (e : Thrown) :
  outcome (selectDevHub (default [] (Flag.target_dev_hub flags))) = Threw e ->
  run flags = MkCmd (effects (selectDevHub (default [] (Flag.target_dev_hub flags)))) (Threw e).
Proof.
  intros H. unfold run, prepare, resolveDevHub.
  rewrite (bind_threw (selectDevHub _) _ e H).
  by rewrite (bind_threw _ _ e), (bind_threw _ _ e).
Qed.

(** X7. The loop over the hubs fails fast. When a hub cannot be probed
    (its authorization, its connection or its limits request is
    rejected) and every hub before it answered without capacity, the run
    throws that rejection: it contacts no hub after the failing one, makes
    no org, and does not go on to a later hub that has capacity. *)
Theorem run_fails_fast_on_unreachable_hub
    (flags : Flag.Flags) (pre post : list string) (hub : string) (e : Rejection) :
  Flag.target_dev_hub flags = Some (pre ++ hub :: post) ->
  (forall v, v ∈ pre -> exists c l, reports v c l /\ ¬ hasCapacity l) ->
  unreachable hub e ->
  outcome (run flags) = Threw (Rejected e) /\
  contacted (effects (run flags)) = pre ++ [hub] /\
  orgsCreated (effects (run flags)) = [].
Proof.
  intros Hhubs Hpre Hdown.
  destruct (selectDevHub_skip_all pre Hpre) as (probes & Hcont & Horgs & Hskip).
  destruct (selectDevHub_unreachable hub e Hdown) as (probe & Hc1 & Ho1 & Hstop).
  assert (Hloop : selectDevHub (pre ++ hub :: post)
                  = MkCmd (probes ++ probe) (Threw (Rejected e))).
  { by rewrite Hskip, Hstop. }
  pose proof (run_hub_failure flags (Rejected e)) as Hrun.
  rewrite Hhubs in Hrun.
  change (default [] (Some (pre ++ hub :: post))) with (pre ++ hub :: post) in Hrun.
  rewrite Hloop in Hrun. rewrite (Hrun eq_refl). cbn [outcome effects].
  by rewrite contacted_app, orgsCreated_app, Hcont, Horgs, Hc1, Ho1.
Qed.

(** X8. When the first hub with capacity is found but [Org.create] on its
    connection is rejected, the run throws that rejection; it does not
    fall back on a later hub. *)
Theorem run_fails_when_org_cannot_be_made
    (flags : Flag.Flags) (pre post : list string) (hub : string)
    (connection : Connection) (limits : LimitResult) (e : Rejection) :
  Flag.target_dev_hub flags = Some (pre ++ hub :: post) ->
  (forall v, v ∈ pre -> exists c l, reports v c l /\ ¬ hasCapacity l) ->
  reports hub connection limits -> hasCapacity limits ->
  Org_create connection = inl e ->
  outcome (run flags) = Threw (Rejected e) /\
  contacted (effects (run flags)) = pre ++ [hub] /\
  orgsCreated (effects (run flags)) = [connection].
Proof.
  intros Hhubs Hpre Hrep Hcap Horg.
  destruct (selectDevHub_skip_all pre Hpre) as (probes & Hcont & Horgs & Hskip).
  destruct (selectDevHub_hit _ _ _ Hrep Hcap) as (probe & Hc1 & Hhit).
  rewrite Horg in Hhit.
  assert (Ho1 : orgsCreated probe = []).
  { destruct Hrep as (a & Ha & Hc & Hl).
    specialize (Hhit []). cbn [selectDevHub] in Hhit.
    rewrite (await_resolved _ _ _ Ha), (bind_returned _ _ a) in Hhit by reflexivity.
    rewrite (await_resolved _ _ _ Hc), (bind_returned _ _ connection) in Hhit by reflexivity.
    rewrite (canCreateScratchOrg_answered _ _ Hl), (bind_returned _ _ true) in Hhit
      by (cbn [outcome]; by rewrite (proj2 (canCreateFrom_true limits) Hcap)).
    rewrite (await_rejected _ _ _ Horg), (bind_threw _ _ (Rejected e)) in Hhit by reflexivity.
    cbn in Hhit. injection Hhit as Hhit.
    apply (f_equal orgsCreated) in Hhit. rewrite orgsCreated_app in Hhit. cbn in Hhit.
    destruct (orgsCreated probe) as [|x xs]; [done|].
    destruct xs; discriminate Hhit. }
  assert (Hloop : selectDevHub (pre ++ hub :: post)
                  = MkCmd (probes ++ probe ++ [CallOrgCreate connection])
                          (Threw (Rejected e))).
  { by rewrite Hskip, Hhit. }
  pose proof (run_hub_failure flags (Rejected e)) as Hrun.
  rewrite Hhubs in Hrun.
  change (default [] (Some (pre ++ hub :: post))) with (pre ++ hub :: post) in Hrun.
  rewrite Hloop in Hrun. rewrite (Hrun eq_refl). cbn [outcome effects].
  rewrite !contacted_app, !orgsCreated_app, Hcont, Horgs, Hc1, Ho1. by cbn.
Qed.

End HubsMore.

(* ===================================================================== *)
(** ** The loop and the preparation, case by case                        *)
(* ===================================================================== *)
Section Unfolding.
Import LimitTypes Runtime OrgUtils OrgCreateScratch Observed.
Context `{sdk : Sdk}.

Lemma canCreateScratchOrg_unanswered (connection : Connection) (e : Rejection) :
  connection_request connection "/limits" = inl e ->
  canCreateScratchOrg connection
  = MkCmd [CallRequest connection "/limits"] (Threw (Rejected e)).
Proof.
  intros H. unfold canCreateScratchOrg, getApiLimits, await, settle. by rewrite H.
Qed.

(** One turn of the loop, by how the calls settle. *)
Lemma selectDevHub_cons (hub : string) (rest : list string) :
  selectDevHub (hub :: rest) =
  match AuthInfo_create hub with
  | inl e => MkCmd [CallAuthInfoCreate hub] (Threw (Rejected e))
  | inr a =>
      match Connection_create a with
      | inl e => MkCmd [CallAuthInfoCreate hub; CallConnectionCreate a] (Threw (Rejected e))
      | inr c =>
          match connection_request c "/limits" with
          | inl e =>
              MkCmd [CallAuthInfoCreate hub; CallConnectionCreate a; CallRequest c "/limits"]
                    (Threw (Rejected e))
          | inr l =>
              if canCreateFrom (toLimits l)
              then MkCmd [CallAuthInfoCreate hub; CallConnectionCreate a;
                          CallRequest c "/limits"; CallOrgCreate c]
                         (match Org_create c with
                          | inr org => Returned (Some org)
                          | inl e => Threw (Rejected e)
                          end)
              else MkCmd ([CallAuthInfoCreate hub; CallConnectionCreate a;
                           CallRequest c "/limits"] ++ effects (selectDevHub rest))
                         (outcome (selectDevHub rest))
          end
      end
  end.
Proof.
  cbn [selectDevHub].
  destruct (AuthInfo_create hub) as [e|a]; [reflexivity|].
  rewrite (bind_returned _ _ a) by reflexivity.
  destruct (Connection_create a) as [e|c]; [reflexivity|].
  rewrite (bind_returned _ _ c) by reflexivity.
  destruct (connection_request c "/limits") as [e|l] eqn:Hl.
  { by rewrite (canCreateScratchOrg_unanswered _ _ Hl), (bind_threw _ _ (Rejected e)). }
  rewrite (canCreateScratchOrg_answered _ _ Hl),
    (bind_returned _ _ (canCreateFrom (toLimits l))) by reflexivity.
  destruct (canCreateFrom (toLimits l)); [|reflexivity].
  by destruct (Org_create c).
Qed.

Lemma Forall_bind {A B} (P : Event -> Prop) (m : Cmd A) (k : A -> Cmd B) :
  Forall P (effects m) -> (forall a, Forall P (effects (k a))) ->
  Forall P (effects (m ≫= k)).
Proof.
  intros Hm Hk. unfold mbind, cmd_bind.
  destruct (outcome m) as [a|e]; cbn [effects]; [|done].
  apply Forall_app. by split.
Qed.

Lemma omap_none {B} (f : Event -> option B) (t : list Event) :
  Forall (fun ev => f ev = None) t -> omap f t = [].
Proof.
  induction 1 as [|ev t Hev _ IH]; [done|]. cbn. by rewrite Hev.
Qed.

(** The loop makes hub calls only. *)
Lemma selectDevHub_probes (hubs : list string) :
  Forall (fun ev => isHubProbe ev = true) (effects (selectDevHub hubs)).
Proof.
  induction hubs as [|hub rest IH]; [by constructor|].
  rewrite selectDevHub_cons. repeat case_match; cbn [effects];
    repeat first [ apply Forall_cons; split; [reflexivity|]
                 | apply Forall_nil_2
                 | apply Forall_app; split
                 | exact IH ].
Qed.

(** The assembly of the options prompts and reads, and nothing else. *)
Lemma assembleOptions_calls (flags : Flag.Flags) (org : Org) :
  Forall (fun ev => isAssembly ev = true) (effects (assembleOptions flags org)).
Proof.
  unfold assembleOptions, await.
  repeat first [ apply Forall_bind; [|intros ?] | by constructor ];
    repeat case_match;
    repeat first [ apply Forall_bind; [|intros ?]
                 | by constructor
                 | by (unfold settle; case_match; constructor) ].
Qed.

(** What a successful preparation tells: the hub of the options is the one
    the loop returned, the base URL is its instance URL and is not empty,
    the secret was prompted exactly for a non-empty client id, the
    definition is what the file contributes, every other option is the
    flag it is named after, and the calls are those of the loop, then the
    prompt, then the file. *)
Lemma prepare_inv (flags : Flag.Flags) (baseUrl : string)
    (options : ScratchOrgCreateOptions Org) :
  outcome (prepare flags) = Returned (baseUrl, options) ->
  exists definition,
    outcome (selectDevHub (default [] (Flag.target_dev_hub flags)))
    = Returned (Some (hubOrg options)) /\
    Org_INSTANCE_URL (hubOrg options) = Some baseUrl /\ baseUrl ≠ "" /\
    match clientSecret options with
    | Some secret =>
        truthy (Flag.client_id flags) = true /\
        secretPrompt (getMessage "prompt.secret" []) = inr secret
    | None => truthy (Flag.client_id flags) = false
    end /\
    contributes flags definition /\
    options = {| alias := Flag.alias flags;
                 apiversion := Flag.api_version flags;
                 clientSecret := clientSecret options;
                 connectedAppConsumerKey := Flag.client_id flags;
                 durationDays := days (Flag.duration_days flags);
                 hubOrg := hubOrg options;
                 nonamespace := Flag.no_namespace flags;
                 noancestors := Flag.no_ancestors flags;
                 orgConfig := orgConfigOf definition flags;
                 setDefault := Flag.set_default flags;
                 tracksSource := Flag.track_source flags;
                 wait := if Flag.async flags then Duration_minutes 0 else Flag.wait flags |} /\
    effects (prepare flags)
    = effects (selectDevHub (default [] (Flag.target_dev_hub flags)))
      ++ (if truthy (Flag.client_id flags)
          then [CallSecretPrompt (getMessage "prompt.secret" [])] else [])
      ++ (if truthy (Flag.definition_file flags)
          then [CallReadFile (default "" (Flag.definition_file flags))] else []).
Proof.
  unfold prepare, resolveDevHub, assembleOptions, contributes, await.
  destruct (selectDevHub (default [] (Flag.target_dev_hub flags)))
    as [t [[org|]|e]]; cbn; [|discriminate..].
  destruct (Org_INSTANCE_URL org) as [[|ch url]|] eqn:Hurl; cbn; [discriminate| |discriminate].
  destruct (truthy (Flag.client_id flags)) eqn:Hcid; cbn.
  - destruct (secretPrompt (getMessage "prompt.secret" [])) as [e|secret] eqn:Hsecret;
      cbn; [discriminate|].
    destruct (truthy (Flag.definition_file flags)) eqn:Hfile; cbn.
    + destruct (readFile (default "" (Flag.definition_file flags))) as [e|text] eqn:Hread;
        cbn; [discriminate|].
      destruct (JSON_parse text) as [e|json] eqn:Hparse; cbn; [discriminate|].
      intros [= <- <-]. cbn. exists (ownProperties json).
      rewrite Hurl, <- !app_assoc. repeat split; try done. by exists text, json.
    + intros [= <- <-]. cbn. exists ∅.
      rewrite Hurl, <- !app_assoc. by repeat split.
  - destruct (truthy (Flag.definition_file flags)) eqn:Hfile; cbn.
    + destruct (readFile (default "" (Flag.definition_file flags))) as [e|text] eqn:Hread;
        cbn; [discriminate|].
      destruct (JSON_parse text) as [e|json] eqn:Hparse; cbn; [discriminate|].
      intros [= <- <-]. cbn. exists (ownProperties json).
      rewrite Hurl, <- !app_assoc. repeat split; try done. by exists text, json.
    + intros [= <- <-]. cbn. exists ∅.
      rewrite Hurl, <- !app_assoc. by repeat split.
Qed.

End Unfolding.

(* ===================================================================== *)
(** ** The workflow call, event by event                                 *)
(* ===================================================================== *)
Section InvokeTrace.
Import LimitTypes Runtime OrgUtils OrgCreateScratch Observed.
Context `{sdk : Sdk}.

(** The listener gives the spinner one status per event and leaves the
    last of them in [lastStatus]. *)
Lemma listen_trace (baseUrl : string) (events : list ScratchOrgLifecycleEvent)
    (lastStatus : option string) :
  listen baseUrl events lastStatus
  = MkCmd (SpinnerStatus <$> statusesOf baseUrl events)
          (Returned (match last (statusesOf baseUrl events) with
                     | Some status => Some status
                     | None => lastStatus
                     end)).
Proof.
  revert lastStatus. induction events as [|data rest IH]; intros lastStatus; [reflexivity|].
  cbn [listen]. rewrite (bind_returned (emit _) _ tt) by reflexivity.
  rewrite IH. unfold statusesOf. rewrite !fmap_cons, last_cons. cbn [effects outcome emit].
  by destruct (last ((fun data0 => buildStatus data0 baseUrl) <$> rest)).
Qed.

(** How the [try] and the [catch] end, by what the workflow settled with. *)
Lemma settled_cases (flags : Flag.Flags) (lastStatus : option string)
    (settled : Settled (ScratchOrgCreateResult ScratchOrgInfo AuthFields)) :
  tryCatch (onSettled flags lastStatus settled) (onError lastStatus) =
  match settled with
  | inr result =>
      match result_scratchOrgInfo result with
      | Some info =>
          MkCmd [SpinnerStop lastStatus; Log;
                 if Flag.async flags
                 then Info (getMessage "action.resume" [Some config_bin; ScratchOrgInfo_Id info])
                 else LogSuccess (getMessage "success" [])]
                (Returned {| username := result_username result;
                             scratchOrgInfo := Some info;
                             authFields := result_authFields result;
                             warnings := result_warnings result;
                             orgId := result_authFields result ≫= AuthFields_orgId |})
      | None =>
          MkCmd [SpinnerStop lastStatus]
                (Threw (NewSfError "The scratch org did not return with any information"))
      end
  | inl e =>
      if instanceofSfError e && bool_decide (errorName e = timeoutErrorName)
      then match errorData e with
           | Some data =>
               MkCmd [SpinnerStop lastStatus;
                      Info (getMessage "action.resume" [Some config_bin; scratchOrgInfoId data])]
                     (Threw (CLIError "The scratch org did not complete within your wait time"
                                      "69" 69))
           | None => MkCmd [SpinnerStop lastStatus] (Threw TypeError)
           end
      else MkCmd [] (Threw (Rejected e))
  end.
Proof.
  unfold tryCatch, onSettled, onError, settle.
  destruct settled as [e|[user [info|] fields notes]]; cbn.
  - destruct (instanceofSfError e && bool_decide (errorName e = timeoutErrorName)); cbn;
      [|reflexivity].
    by destruct (errorData e).
  - by destruct (Flag.async flags).
  - reflexivity.
Qed.

(** The status the spinner is stopped with. *)
Lemma invoke_trace (flags : Flag.Flags) (baseUrl : string)
    (options : ScratchOrgCreateOptions Org) :
  invoke flags baseUrl options
  = MkCmd
      ((if Flag.async flags then [] else [LifecycleOn scratchOrgLifecycleEventName baseUrl])
       ++ [Log;
           SpinnerStart (if Flag.async flags
                         then "Requesting Scratch Org (will not wait for completion because --async)"
                         else "Creating Scratch Org");
           CallScratchOrgCreate options]
       ++ (if Flag.async flags then []
           else SpinnerStatus <$> statusesOf baseUrl (scratchOrgCreate options).1)
       ++ effects (tryCatch
                     (onSettled flags
                        (if Flag.async flags then None
                         else last (statusesOf baseUrl (scratchOrgCreate options).1))
                        (scratchOrgCreate options).2)
                     (onError
                        (if Flag.async flags then None
                         else last (statusesOf baseUrl (scratchOrgCreate options).1)))))
      (outcome (tryCatch
                  (onSettled flags
                     (if Flag.async flags then None
                      else last (statusesOf baseUrl (scratchOrgCreate options).1))
                     (scratchOrgCreate options).2)
                  (onError
                     (if Flag.async flags then None
                      else last (statusesOf baseUrl (scratchOrgCreate options).1))))).
Proof.
  unfold invoke. destruct (Flag.async flags); cbn [negb]; [reflexivity|].
  rewrite listen_trace.
  assert (Hlast : match last (statusesOf baseUrl (scratchOrgCreate options).1) with
                  | Some status => Some status
                  | None => None
                  end = last (statusesOf baseUrl (scratchOrgCreate options).1))
    by (by destruct (last _)).
  rewrite Hlast. reflexivity.
Qed.

(** Nothing the workflow call does is a call of the preparation. *)
Lemma invoke_after_preparation (flags : Flag.Flags) (baseUrl : string)
    (options : ScratchOrgCreateOptions Org) :
  Forall (fun ev => isPreparation ev = false) (effects (invoke flags baseUrl options)).
Proof.
  rewrite invoke_trace, settled_cases. cbn [effects].
  repeat (apply Forall_app; split).
  - destruct (Flag.async flags); repeat constructor.
  - repeat constructor.
  - destruct (Flag.async flags); [constructor|].
    apply Forall_fmap, Forall_true. done.
  - repeat case_match; repeat constructor.
Qed.

Lemma prepare_calls (flags : Flag.Flags) :
  Forall (fun ev => isPreparation ev = true) (effects (prepare flags)).
Proof.
  unfold prepare, resolveDevHub. apply Forall_bind; [apply Forall_bind|].
  - eapply Forall_impl; [apply selectDevHub_probes|].
    intros ev. by destruct ev.
  - intros [org|]; by constructor.
  - intros org. eapply Forall_impl; [apply assembleOptions_calls|].
    intros ev. by destruct ev.
Qed.

End InvokeTrace.

(* ===================================================================== *)
(** ** More on the run of the command                                    *)
(* ===================================================================== *)
Section RunMore.
Import LimitTypes Runtime OrgUtils OrgCreateScratch Observed.
Context `{sdk : Sdk}.

(** A run is the loop over the hubs, then (if a hub was found) the
    assembly of the options, then (if they were assembled) the workflow
    call. *)
Lemma run_phases (flags : Flag.Flags) :
  exists assembly invocation,
    effects (run flags)
    = effects (selectDevHub (default [] (Flag.target_dev_hub flags)))
      ++ assembly ++ invocation /\
    (assembly = [] \/ exists org, assembly = effects (assembleOptions flags org)) /\
    (invocation = [] \/
     exists baseUrl options,
       outcome (prepare flags) = Returned (baseUrl, options) /\
       invocation = effects (invoke flags baseUrl options)).
Proof.
  unfold run, prepare, resolveDevHub.
  destruct (selectDevHub (default [] (Flag.target_dev_hub flags))) as [t [[org|]|e]].
  - rewrite (bind_returned (MkCmd t _) _ (Some org)) by reflexivity.
    cbn [effects outcome mret cmd_ret]. rewrite app_nil_r.
    destruct (outcome (assembleOptions flags org)) as [[baseUrl options]|e] eqn:Hopts.
    + rewrite (bind_returned (MkCmd t _) _ org) by reflexivity.
      rewrite (bind_returned _ _ (baseUrl, options)) by done.
      exists (effects (assembleOptions flags org)), (effects (invoke flags baseUrl options)).
      cbn [effects outcome fst snd]. rewrite <- app_assoc.
      split; [done|]. split; [right; by exists org|].
      right. by exists baseUrl, options.
    + rewrite (bind_returned (MkCmd t _) _ org) by reflexivity.
      rewrite (bind_threw _ _ e) by done.
      exists (effects (assembleOptions flags org)), [].
      cbn [effects]. rewrite app_nil_r.
      split; [done|]. split; [right; by exists org|by left].
  - rewrite (bind_returned (MkCmd t _) _ None) by reflexivity.
    cbn [effects outcome throw].
    rewrite (bind_threw _ _ (MessagesError "noAvailableDevhubs")) by reflexivity.
    rewrite (bind_threw _ _ (MessagesError "noAvailableDevhubs")) by reflexivity.
    exists [], []. cbn [effects]. split; [reflexivity|]. split; by left.
  - rewrite (bind_threw (MkCmd t _) _ e) by reflexivity.
    rewrite (bind_threw _ _ e), (bind_threw _ _ e) by reflexivity.
    exists [], []. cbn [effects]. rewrite !app_nil_r. split; [reflexivity|]. split; by left.
Qed.

(** The effects of a filter on the three phases. *)
Lemma filter_phases {B} (f : Event -> option B) (flags : Flag.Flags) :
  exists assembly invocation,
    omap f (effects (run flags))
    = omap f (effects (selectDevHub (default [] (Flag.target_dev_hub flags))))
      ++ omap f assembly ++ omap f invocation /\
    Forall (fun ev => isAssembly ev = true) assembly /\
    Forall (fun ev => isPreparation ev = false) invocation.
Proof.
  destruct (run_phases flags) as (assembly & invocation & -> & Ha & Hi).
  exists assembly, invocation. rewrite !omap_app. split; [done|]. split.
  - destruct Ha as [->|[org ->]]; [constructor|apply assembleOptions_calls].
  - destruct Hi as [->|(b & o & _ & ->)]; [constructor|apply invoke_after_preparation].
Qed.

Lemma contacted_of_assembly (t : list Event) :
  Forall (fun ev => isAssembly ev = true) t -> contacted t = [] /\ orgsCreated t = [].
Proof.
  intros H. split; apply omap_none; eapply Forall_impl; try exact H;
    intros ev; by destruct ev.
Qed.

Lemma contacted_of_invocation (t : list Event) :
  Forall (fun ev => isPreparation ev = false) t ->
  contacted t = [] /\ orgsCreated t = [] /\ prompts t = [] /\ filesRead t = [].
Proof.
  intros H. repeat split; apply omap_none; eapply Forall_impl; try exact H;
    intros ev; by destruct ev.
Qed.

Lemma prompts_of_probes (t : list Event) :
  Forall (fun ev => isHubProbe ev = true) t -> prompts t = [] /\ filesRead t = [].
Proof.
  intros H. split; apply omap_none; eapply Forall_impl; try exact H;
    intros ev; by destruct ev.
Qed.

(** The loop contacts the hubs in the order of the list, leaves none out
    on its way, and makes at most one org. *)
Lemma selectDevHub_in_order (hubs : list string) :
  contacted (effects (selectDevHub hubs)) `prefix_of` hubs /\
  length (orgsCreated (effects (selectDevHub hubs))) <= 1.
Proof.
  induction hubs as [|hub rest [[k IHk] IHo]].
  - split; [by exists []|]. cbn. lia.
  - rewrite selectDevHub_cons.
    assert (Hone : [hub] `prefix_of` hub :: rest) by (by exists rest).
    repeat case_match; cbn [effects]; (split; [try exact Hone|try (cbn; lia)]).
    + rewrite contacted_app. cbn. exists k. by rewrite IHk at 1.
    + rewrite orgsCreated_app. by cbn.
Qed.

(** X9. Whatever the hubs answer, a run contacts them in the order of the
    list, starting with the first and leaving none out on its way, each
    at most once per entry, and makes at most one org. *)
Theorem run_contacts_hubs_in_order (flags : Flag.Flags) :
  contacted (effects (run flags)) `prefix_of` default [] (Flag.target_dev_hub flags) /\
  length (orgsCreated (effects (run flags))) <= 1.
Proof.
  destruct (selectDevHub_in_order (default [] (Flag.target_dev_hub flags))) as [Hpre Hone].
  split.
  - destruct (filter_phases (fun ev => match ev with CallAuthInfoCreate u => Some u | _ => None end)
                flags) as (a & i & Heq & Ha & Hi).
    fold (contacted (effects (run flags))) in Heq. fold (contacted a) in Heq.
    fold (contacted i) in Heq.
    fold (contacted (effects (selectDevHub (default [] (Flag.target_dev_hub flags))))) in Heq.
    rewrite Heq, (proj1 (contacted_of_assembly a Ha)), (proj1 (contacted_of_invocation i Hi)).
    by rewrite !app_nil_r.
  - destruct (filter_phases (fun ev => match ev with CallOrgCreate c => Some c | _ => None end)
                flags) as (a & i & Heq & Ha & Hi).
    fold (orgsCreated (effects (run flags))) in Heq. fold (orgsCreated a) in Heq.
    fold (orgsCreated i) in Heq.
    fold (orgsCreated (effects (selectDevHub (default [] (Flag.target_dev_hub flags))))) in Heq.
    rewrite Heq, (proj2 (contacted_of_assembly a Ha)),
      (proj1 (proj2 (contacted_of_invocation i Hi))).
    by rewrite !app_nil_r.
Qed.

End RunMore.

Section RunInversions.
Import LimitTypes Runtime OrgUtils OrgCreateScratch Observed.
Context `{sdk : Sdk}.

(** A hub the loop returns answered with capacity, and its org was made
    from its connection. *)
Lemma selectDevHub_returned_inv (hubs : list string) (org : Org) :
  outcome (selectDevHub hubs) = Returned (Some org) ->
  exists hub connection limits,
    hub ∈ hubs /\ reports hub connection limits /\ hasCapacity limits /\
    Org_create connection = inr org.
Proof.
  induction hubs as [|hub rest IH]; [discriminate|].
  rewrite selectDevHub_cons.
  destruct (AuthInfo_create hub) as [e|a] eqn:Ha; [discriminate|].
  destruct (Connection_create a) as [e|c] eqn:Hc; [discriminate|].
  destruct (connection_request c "/limits") as [e|l] eqn:Hl; [discriminate|].
  destruct (canCreateFrom (toLimits l)) eqn:Hcap; cbn [outcome].
  - destruct (Org_create c) as [e|org'] eqn:Horg; [discriminate|]. intros [= ->].
    exists hub, c, l. split; [by left|]. split; [by exists a|].
    split; [by apply canCreateFrom_true|done].
  - intros H. destruct (IH H) as (hub' & c' & l' & Hin & Hrest).
    exists hub', c', l'. split; [by right|done].
Qed.

(** The loop throws nothing of its own: only what a call was rejected with. *)
Lemma selectDevHub_throws (hubs : list string) (t : Thrown) :
  outcome (selectDevHub hubs) = Threw t -> exists e, t = Rejected e.
Proof.
  induction hubs as [|hub rest IH]; [discriminate|].
  rewrite selectDevHub_cons.
  repeat case_match; cbn [outcome]; try discriminate; try exact IH;
    intros [= <-]; by eexists.
Qed.

(** What the preparation can throw. *)
Lemma prepare_throws (flags : Flag.Flags) (t : Thrown) :
  outcome (prepare flags) = Threw t ->
  t = MessagesError "noAvailableDevhubs" \/
  t = NewSfError "No instance URL found for the dev hub" \/
  exists e, t = Rejected e.
Proof.
  unfold prepare, resolveDevHub.
  destruct (selectDevHub (default [] (Flag.target_dev_hub flags)))
    as [tr [[org|]|e]] eqn:Hloop.
  - rewrite (bind_returned (MkCmd tr _) _ (Some org)) by reflexivity.
    cbn [effects outcome mret cmd_ret].
    rewrite (bind_returned (MkCmd _ _) _ org) by reflexivity. cbn [outcome].
    unfold assembleOptions, await.
    destruct (truthy (Org_INSTANCE_URL org)); cbn; [|intros [= <-]; eauto].
    destruct (truthy (Flag.client_id flags)); cbn.
    + destruct (secretPrompt (getMessage "prompt.secret" [])); cbn; [intros [= <-]; eauto|].
      destruct (truthy (Flag.definition_file flags)); cbn; [|discriminate].
      destruct (readFile (default "" (Flag.definition_file flags))); cbn;
        [intros [= <-]; eauto|].
      destruct (JSON_parse _); cbn; [intros [= <-]; eauto|discriminate].
    + destruct (truthy (Flag.definition_file flags)); cbn; [|discriminate].
      destruct (readFile (default "" (Flag.definition_file flags))); cbn;
        [intros [= <-]; eauto|].
      destruct (JSON_parse _); cbn; [intros [= <-]; eauto|discriminate].
  - rewrite (bind_returned (MkCmd tr _) _ None) by reflexivity.
    cbn [effects outcome throw].
    rewrite (bind_threw _ _ (MessagesError "noAvailableDevhubs")) by reflexivity.
    intros [= <-]. by left.
  - rewrite (bind_threw (MkCmd tr _) _ e), (bind_threw _ _ e) by reflexivity.
    intros [= <-]. right. right.
    apply (selectDevHub_throws (default [] (Flag.target_dev_hub flags))).
    by rewrite Hloop.
Qed.

(** X10. The workflow is called at most once in a run, never again after
    it failed, and only with a hub that answered its limits request with
    capacity and whose org was made from that connection: whatever the
    hubs answer, no run asks a hub without capacity for a scratch org. *)
Theorem workflow_runs_once_on_a_hub_with_capacity
    (flags : Flag.Flags) (options : ScratchOrgCreateOptions Org) :
  options ∈ passedDownstream (effects (run flags)) ->
  passedDownstream (effects (run flags)) = [options] /\
  exists hub connection limits,
    hub ∈ default [] (Flag.target_dev_hub flags) /\
    reports hub connection limits /\ hasCapacity limits /\
    Org_create connection = inr (hubOrg options).
Proof.
  intros Hin.
  destruct (outcome (prepare flags)) as [[baseUrl o]|t] eqn:Hprep.
  - destruct (run_trace_prepared _ _ _ Hprep) as [Hpassed _].
    rewrite Hpassed in Hin |- *. apply list_elem_of_singleton in Hin as ->.
    split; [done|].
    destruct (prepare_inv _ _ _ Hprep) as (definition & Hloop & _).
    by apply selectDevHub_returned_inv.
  - destruct (run_trace_unprepared _ _ Hprep) as [Hpassed _].
    rewrite Hpassed in Hin. by apply elem_of_nil in Hin.
Qed.

(** X11. A hub that was found but has no instance URL (none, or an empty
    one) ends the run with the error [No instance URL found for the dev
    hub], before anything else is done: no secret is prompted, no file is
    read, the workflow is not called. *)
Theorem run_requires_instance_url (flags : Flag.Flags) (org : Org) :
  outcome (resolveDevHub flags) = Returned org ->
  truthy (Org_INSTANCE_URL org) = false ->
  outcome (run flags) = Threw (NewSfError "No instance URL found for the dev hub") /\
  effects (run flags) = effects (resolveDevHub flags) /\
  prompts (effects (run flags)) = [] /\
  filesRead (effects (run flags)) = [] /\
  passedDownstream (effects (run flags)) = [].
Proof.
  intros Hres Hurl.
  assert (Hrun : run flags
                 = MkCmd (effects (resolveDevHub flags))
                         (Threw (NewSfError "No instance URL found for the dev hub"))).
  { unfold run, prepare. rewrite (bind_returned _ _ org Hres).
    unfold assembleOptions. rewrite Hurl. cbn [negb].
    rewrite (bind_threw (throw _) _ (NewSfError "No instance URL found for the dev hub"))
      by reflexivity.
    cbn [effects outcome throw].
    rewrite (bind_threw _ _ (NewSfError "No instance URL found for the dev hub"))
      by reflexivity.
    cbn [effects]. by rewrite app_nil_r. }
  rewrite Hrun. cbn [outcome effects]. split; [done|]. split; [done|].
  assert (Hcalls : Forall (fun ev => isHubProbe ev = true) (effects (resolveDevHub flags))).
  { unfold resolveDevHub. apply Forall_bind; [apply selectDevHub_probes|].
    intros [o|]; constructor. }
  destruct (prompts_of_probes _ Hcalls) as [-> ->]. split; [done|]. split; [done|].
  apply omap_none. eapply Forall_impl; [exact Hcalls|]. intros ev. by destruct ev.
Qed.

End RunInversions.

Section AssemblyMore.
Import LimitTypes Runtime OrgUtils OrgCreateScratch Observed.
Context `{sdk : Sdk}.

Lemma prompts_app (t1 t2 : list Event) : prompts (t1 ++ t2) = prompts t1 ++ prompts t2.
Proof. apply omap_app. Qed.

Lemma filesRead_app (t1 t2 : list Event) : filesRead (t1 ++ t2) = filesRead t1 ++ filesRead t2.
Proof. apply omap_app. Qed.

(** Without a client id the assembly does not prompt; without a
    definition file it does not read. *)
Lemma assembleOptions_silent (flags : Flag.Flags) (org : Org) :
  (truthy (Flag.client_id flags) = false ->
   prompts (effects (assembleOptions flags org)) = []) /\
  (truthy (Flag.definition_file flags) = false ->
   filesRead (effects (assembleOptions flags org)) = []).
Proof.
  unfold assembleOptions, await.
  split; intros ->;
    (destruct (truthy (Org_INSTANCE_URL org)); cbn; [|reflexivity]).
  - destruct (truthy (Flag.definition_file flags)); cbn; [|reflexivity].
    destruct (readFile (default "" (Flag.definition_file flags))); cbn; [reflexivity|].
    by destruct (JSON_parse _).
  - destruct (truthy (Flag.client_id flags)); cbn; [|reflexivity].
    by destruct (secretPrompt (getMessage "prompt.secret" [])).
Qed.

(** The prompts and the file reads of a run are those of its assembly. *)
Lemma run_prompts_and_reads (flags : Flag.Flags) :
  exists assembly,
    (assembly = [] \/ exists org, assembly = effects (assembleOptions flags org)) /\
    prompts (effects (run flags)) = prompts assembly /\
    filesRead (effects (run flags)) = filesRead assembly.
Proof.
  destruct (run_phases flags) as (assembly & invocation & Heq & Ha & Hi).
  exists assembly. split; [exact Ha|].
  assert (Hinv : Forall (fun ev => isPreparation ev = false) invocation).
  { destruct Hi as [->|(b & o & _ & ->)]; [constructor|apply invoke_after_preparation]. }
  destruct (contacted_of_invocation _ Hinv) as (_ & _ & Hp & Hf).
  destruct (prompts_of_probes _ (selectDevHub_probes (default [] (Flag.target_dev_hub flags))))
    as [Hp0 Hf0].
  rewrite Heq, !prompts_app, !filesRead_app, Hp, Hf, Hp0, Hf0, !app_nil_r. done.
Qed.

(** The prompts and the file reads of a run that got to the workflow. *)
Lemma run_prepared_prompts_and_reads (flags : Flag.Flags) (baseUrl : string)
    (options : ScratchOrgCreateOptions Org) :
  outcome (prepare flags) = Returned (baseUrl, options) ->
  prompts (effects (run flags))
  = (if truthy (Flag.client_id flags) then [getMessage "prompt.secret" []] else []) /\
  filesRead (effects (run flags))
  = (if truthy (Flag.definition_file flags)
     then [default "" (Flag.definition_file flags)] else []).
Proof.
  intros Hprep. rewrite (run_prepared _ _ _ Hprep). cbn [effects].
  destruct (prepare_inv _ _ _ Hprep) as (definition & _ & _ & _ & _ & _ & _ & ->).
  destruct (contacted_of_invocation _ (invoke_after_preparation flags baseUrl options))
    as (_ & _ & Hp & Hf).
  destruct (prompts_of_probes _ (selectDevHub_probes (default [] (Flag.target_dev_hub flags))))
    as [Hp0 Hf0].
  rewrite !prompts_app, !filesRead_app, Hp, Hf, Hp0, Hf0, !app_nil_r.
  by destruct (truthy (Flag.client_id flags)), (truthy (Flag.definition_file flags)).
Qed.

(** X12. The client secret is prompted for exactly when a non-empty client
    id is given. Without one no run prompts, however it ends. In a run
    that gets to the workflow, there is one prompt for a client id and
    none without, the client id is passed on as the consumer key, and the
    secret passed on is what the prompt resolved with (none without a
    client id). *)
Theorem secret_prompted_only_for_client_id (flags : Flag.Flags) :
  (truthy (Flag.client_id flags) = false -> prompts (effects (run flags)) = []) /\
  (forall baseUrl options,
     outcome (prepare flags) = Returned (baseUrl, options) ->
     prompts (effects (run flags))
     = (if truthy (Flag.client_id flags) then [getMessage "prompt.secret" []] else []) /\
     connectedAppConsumerKey options = Flag.client_id flags /\
     match clientSecret options with
     | Some secret =>
         truthy (Flag.client_id flags) = true /\
         secretPrompt (getMessage "prompt.secret" []) = inr secret
     | None => truthy (Flag.client_id flags) = false
     end).
Proof.
  split.
  - intros Hcid. destruct (run_prompts_and_reads flags) as (assembly & Ha & -> & _).
    destruct Ha as [->|[org ->]]; [done|].
    by apply assembleOptions_silent.
  - intros baseUrl options Hprep.
    split; [apply (run_prepared_prompts_and_reads _ _ _ Hprep)|].
    destruct (prepare_inv _ _ _ Hprep) as (definition & _ & _ & _ & Hsecret & _ & Hopts & _).
    split; [by rewrite Hopts|exact Hsecret].
Qed.


(** X14. A definition file that cannot be read, or whose content does not
    parse, ends the run with that very failure, after the hub was chosen
    (and the secret prompted): the workflow is not called and nothing is
    subscribed to. *)
Theorem run_fails_on_bad_definition_file
    (flags : Flag.Flags) (org : Org) (e : Rejection) :
  outcome (resolveDevHub flags) = Returned org ->
  truthy (Org_INSTANCE_URL org) = true ->
  (truthy (Flag.client_id flags) = true ->
   exists secret, secretPrompt (getMessage "prompt.secret" []) = inr secret) ->
  truthy (Flag.definition_file flags) = true ->
  (readFile (default "" (Flag.definition_file flags)) = inl e \/
   exists text, readFile (default "" (Flag.definition_file flags)) = inr text /\
                JSON_parse text = inl e) ->
  outcome (run flags) = Threw (Rejected e) /\
  filesRead (effects (run flags)) = [default "" (Flag.definition_file flags)] /\
  passedDownstream (effects (run flags)) = [] /\
  subscriptions (effects (run flags)) = [].
Proof.
  intros Hres Hurl Hsecret Hfile Hbad.
  assert (Hassemble : outcome (assembleOptions flags org) = Threw (Rejected e) /\
                      filesRead (effects (assembleOptions flags org))
                      = [default "" (Flag.definition_file flags)]).
  { unfold assembleOptions, await. rewrite Hurl, Hfile. cbn [negb].
    destruct (truthy (Flag.client_id flags)).
    - destruct Hsecret as [secret ->]; [done|].
      destruct Hbad as [Hr|(text & Hr & Hp)]; rewrite Hr; cbn; [done|].
      rewrite Hp. by cbn.
    - destruct Hbad as [Hr|(text & Hr & Hp)]; rewrite Hr; cbn; [done|].
      rewrite Hp. by cbn. }
  destruct Hassemble as [Hthrow Hread].
  assert (Hprep : outcome (prepare flags) = Threw (Rejected e)).
  { unfold prepare. by rewrite (bind_returned _ _ org Hres). }
  assert (Heff : effects (run flags)
                 = effects (resolveDevHub flags) ++ effects (assembleOptions flags org)).
  { unfold run. rewrite (bind_threw _ _ _ Hprep). cbn [effects].
    unfold prepare. by rewrite (bind_returned _ _ org Hres). }
  assert (Hcalls : Forall (fun ev => isHubProbe ev = true) (effects (resolveDevHub flags))).
  { unfold resolveDevHub. apply Forall_bind; [apply selectDevHub_probes|].
    intros [o|]; constructor. }
  split; [unfold run; by rewrite (bind_threw _ _ _ Hprep)|].
  split.
  - rewrite Heff, filesRead_app, Hread.
    by rewrite (proj2 (prompts_of_probes _ Hcalls)).
  - by destruct (run_trace_unprepared _ _ Hprep) as [-> ->].
Qed.

End AssemblyMore.

Section OutcomeMore.
Import LimitTypes Runtime OrgUtils OrgCreateScratch Observed.
Context `{sdk : Sdk}.

(** The status the command holds when the workflow settles: the last the
    listener made, none under [async]. *)
Lemma run_from_workflow (flags : Flag.Flags) (baseUrl : string)
    (options : ScratchOrgCreateOptions Org) :
  outcome (prepare flags) = Returned (baseUrl, options) ->
  run flags
  = MkCmd
      (effects (prepare flags)
       ++ (if Flag.async flags then [] else [LifecycleOn scratchOrgLifecycleEventName baseUrl])
       ++ [Log;
           SpinnerStart (if Flag.async flags
                         then "Requesting Scratch Org (will not wait for completion because --async)"
                         else "Creating Scratch Org");
           CallScratchOrgCreate options]
       ++ (if Flag.async flags then []
           else SpinnerStatus <$> statusesOf baseUrl (scratchOrgCreate options).1)
       ++ effects (tryCatch
                     (onSettled flags
                        (if Flag.async flags then None
                         else last (statusesOf baseUrl (scratchOrgCreate options).1))
                        (scratchOrgCreate options).2)
                     (onError
                        (if Flag.async flags then None
                         else last (statusesOf baseUrl (scratchOrgCreate options).1)))))
      (outcome (tryCatch
                  (onSettled flags
                     (if Flag.async flags then None
                      else last (statusesOf baseUrl (scratchOrgCreate options).1))
                     (scratchOrgCreate options).2)
                  (onError
                     (if Flag.async flags then None
                      else last (statusesOf baseUrl (scratchOrgCreate options).1))))).
Proof. intros Hprep. by rewrite (run_prepared _ _ _ Hprep), invoke_trace. Qed.

(** X15. A run whose workflow resolves with scratch-org info does, after
    the preparation, exactly this, in this order. Under [async]: a blank
    line, the spinner started with the [--async] text, the workflow call,
    the spinner stopped without status, a blank line, the resume message
    made of the binary name and the id of the scratch-org info. Otherwise:
    the subscription, a blank line, the spinner started with [Creating
    Scratch Org], the workflow call, one spinner status per lifecycle
    event, the spinner stopped with the last of these statuses, a blank
    line, the success message. *)
Theorem successful_run_trace (flags : Flag.Flags) (baseUrl : string)
    (options : ScratchOrgCreateOptions Org)
    (result : ScratchOrgCreateResult ScratchOrgInfo AuthFields) (info : ScratchOrgInfo) :
  outcome (prepare flags) = Returned (baseUrl, options) ->
  (scratchOrgCreate options).2 = inr result ->
  result_scratchOrgInfo result = Some info ->
  effects (run flags)
  = effects (prepare flags)
    ++ (if Flag.async flags
        then [Log;
              SpinnerStart "Requesting Scratch Org (will not wait for completion because --async)";
              CallScratchOrgCreate options;
              SpinnerStop None;
              Log;
              Info (getMessage "action.resume" [Some config_bin; ScratchOrgInfo_Id info])]
        else [LifecycleOn scratchOrgLifecycleEventName baseUrl;
              Log;
              SpinnerStart "Creating Scratch Org";
              CallScratchOrgCreate options]
             ++ (SpinnerStatus <$> statusesOf baseUrl (scratchOrgCreate options).1)
             ++ [SpinnerStop (last (statusesOf baseUrl (scratchOrgCreate options).1));
                 Log;
                 LogSuccess (getMessage "success" [])]).
Proof.
  intros Hprep Hres Hinfo. rewrite (run_from_workflow _ _ _ Hprep), settled_cases.
  rewrite Hres, Hinfo. cbn [effects]. by destruct (Flag.async flags).
Qed.

(** X16. What the timeout branch does depends on the data of the error.
    With data, the run ends in [this.error] with exit status 69 after the
    resume message made of the binary name and whatever the data has as
    [scratchOrgInfoId] (nothing, if the property is missing). Without
    data, reading the id fails: the run throws a [TypeError] once the
    spinner is stopped, and no resume message is emitted. *)
Theorem timeout_branch_by_error_data (flags : Flag.Flags) (baseUrl : string)
    (options : ScratchOrgCreateOptions Org) (error : Rejection) :
  outcome (prepare flags) = Returned (baseUrl, options) ->
  (scratchOrgCreate options).2 = inl error ->
  isTimeoutError error ->
  match errorData error with
  | Some data =>
      outcome (run flags)
      = Threw (CLIError "The scratch org did not complete within your wait time" "69" 69) /\
      last (effects (run flags))
      = Some (Info (getMessage "action.resume" [Some config_bin; scratchOrgInfoId data]))
  | None =>
      outcome (run flags) = Threw TypeError /\
      last (effects (run flags))
      = Some (SpinnerStop (if Flag.async flags then None
                           else last (statusesOf baseUrl (scratchOrgCreate options).1))) /\
      Forall (fun ev => forall message, ev ≠ Info message) (effects (run flags))
  end.
Proof.
  intros Hprep Hrej [Hsf Hname]. rewrite (run_from_workflow _ _ _ Hprep), settled_cases.
  rewrite Hrej, Hsf, Hname, bool_decide_eq_true_2 by done. cbn [andb].
  destruct (errorData error) as [data|]; cbn [outcome effects].
  - split; [done|]. rewrite cons_middle, !app_assoc. apply last_snoc.
  - split; [done|]. split; [rewrite !app_assoc; apply last_snoc|].
    repeat (apply Forall_app; split).
    + eapply Forall_impl; [apply prepare_calls|]. intros ev Hev m ->. discriminate Hev.
    + destruct (Flag.async flags); repeat constructor; done.
    + repeat constructor; done.
    + destruct (Flag.async flags); [constructor|].
      apply Forall_fmap, Forall_true. done.
    + repeat constructor; done.
Qed.

(** X17. The spinner follows the lifecycle events. In a run that gets to
    the workflow, the spinner is given one status per lifecycle event, in
    order, and none under [async]. It is stopped once, with the last of
    these statuses (with none under [async] or without events), when the
    workflow resolves or times out; when the workflow is rejected with any
    other error, the command never stops the spinner. *)
Theorem spinner_follows_lifecycle_events (flags : Flag.Flags) (baseUrl : string)
    (options : ScratchOrgCreateOptions Org) :
  outcome (prepare flags) = Returned (baseUrl, options) ->
  spinnerStatuses (effects (run flags))
  = (if Flag.async flags then [] else statusesOf baseUrl (scratchOrgCreate options).1) /\
  spinnerStops (effects (run flags))
  = match (scratchOrgCreate options).2 with
    | inr _ =>
        [if Flag.async flags then None
         else last (statusesOf baseUrl (scratchOrgCreate options).1)]
    | inl e =>
        if instanceofSfError e && bool_decide (errorName e = timeoutErrorName)
        then [if Flag.async flags then None
              else last (statusesOf baseUrl (scratchOrgCreate options).1)]
        else []
    end.
Proof.
  intros Hprep. rewrite (run_from_workflow _ _ _ Hprep), settled_cases. cbn [effects].
  assert (Hquiet : spinnerStatuses (effects (prepare flags)) = [] /\
                   spinnerStops (effects (prepare flags)) = []).
  { split; apply omap_none; (eapply Forall_impl; [apply prepare_calls|]);
      intros ev; by destruct ev. }
  destruct Hquiet as [Hq1 Hq2].
  assert (Hst : forall l : list string, spinnerStatuses (SpinnerStatus <$> l) = l).
  { induction l as [|x l IH]; [done|]. cbn. f_equal. exact IH. }
  assert (Hsp : forall l : list string, spinnerStops (SpinnerStatus <$> l) = []).
  { induction l as [|x l IH]; [done|]. exact IH. }
  unfold spinnerStatuses, spinnerStops in *. rewrite !omap_app, Hq1, Hq2.
  destruct (Flag.async flags).
  - split; repeat case_match; reflexivity.
  - rewrite Hst, Hsp. split; repeat case_match; cbn; by rewrite ?app_nil_r.
Qed.

End OutcomeMore.

Section EndingsMore.
Import LimitTypes Runtime OrgUtils OrgCreateScratch Observed.
Context `{sdk : Sdk}.

(** X18. Exit status 69 means timeout and nothing else. A run that ends in
    [this.error] ends with the code and exit status 69 and the text about
    the wait time, and it got to the workflow, which was rejected with
    the timeout error, an error with data. *)
Theorem exit_69_only_on_timeout (flags : Flag.Flags) (message code : string) (exit : Z) :
  outcome (run flags) = Threw (CLIError message code exit) ->
  (message = "The scratch org did not complete within your wait time" /\
   code = "69" /\ exit = 69%Z) /\
  exists baseUrl options error data,
    outcome (prepare flags) = Returned (baseUrl, options) /\
    (scratchOrgCreate options).2 = inl error /\
    isTimeoutError error /\ errorData error = Some data.
Proof.
  destruct (outcome (prepare flags)) as [[baseUrl options]|t] eqn:Hprep.
  - rewrite (run_from_workflow _ _ _ Hprep), settled_cases. cbn [outcome].
    destruct (scratchOrgCreate options).2 as [e|result] eqn:Hsettled.
    + destruct (instanceofSfError e) eqn:Hsf; cbn [andb]; [|discriminate].
      case_bool_decide as Hname; [|discriminate].
      destruct (errorData e) as [data|] eqn:Hdata; [|discriminate].
      intros [= <- <- <-]. split; [done|].
      exists baseUrl, options, e, data. by repeat split.
    + by destruct (result_scratchOrgInfo result).
  - unfold run. rewrite (bind_threw _ _ _ Hprep). cbn [outcome]. intros [= ->].
    by destruct (prepare_throws _ _ Hprep) as [?|[?|[? ?]]].
Qed.

(** X19. The command returns only what a workflow that resolved with
    scratch-org info gave it: a returned response always has scratch-org
    info, its username, auth fields and warnings are those of the
    workflow's result, and its org id is that of the auth fields (none
    without auth fields). *)
Theorem returned_response_comes_from_the_workflow (flags : Flag.Flags)
    (response : ScratchCreateResponse ScratchOrgInfo AuthFields) :
  outcome (run flags) = Returned response ->
  exists baseUrl options result info,
    outcome (prepare flags) = Returned (baseUrl, options) /\
    (scratchOrgCreate options).2 = inr result /\
    result_scratchOrgInfo result = Some info /\
    scratchOrgInfo response = Some info /\
    username response = result_username result /\
    authFields response = result_authFields result /\
    warnings response = result_warnings result /\
    orgId response = match authFields response with
                     | Some fields => AuthFields_orgId fields
                     | None => None
                     end.
Proof.
  destruct (outcome (prepare flags)) as [[baseUrl options]|t] eqn:Hprep.
  - rewrite (run_from_workflow _ _ _ Hprep), settled_cases. cbn [outcome].
    destruct (scratchOrgCreate options).2 as [e|result] eqn:Hsettled.
    + repeat case_match; discriminate.
    + destruct (result_scratchOrgInfo result) as [info|] eqn:Hinfo; [|discriminate].
      intros [= <-]. exists baseUrl, options, result, info. cbn.
      repeat split; try done; by destruct (result_authFields result).
  - unfold run. rewrite (bind_threw _ _ _ Hprep). discriminate.
Qed.

(** X20. Everything the command can throw: the [noAvailableDevhubs] error
    of the message registry, the two errors it makes itself (no instance
    URL, no scratch-org info), [this.error] with exit status 69, a
    [TypeError] (from the timeout error without data), or what a call was
    rejected with, unchanged. *)
Theorem run_throws_one_of (flags : Flag.Flags) (t : Thrown) :
  outcome (run flags) = Threw t ->
  t = MessagesError "noAvailableDevhubs" \/
  t = NewSfError "No instance URL found for the dev hub" \/
  t = NewSfError "The scratch org did not return with any information" \/
  t = CLIError "The scratch org did not complete within your wait time" "69" 69 \/
  t = TypeError \/
  exists e, t = Rejected e.
Proof.
  destruct (outcome (prepare flags)) as [[baseUrl options]|t'] eqn:Hprep.
  - rewrite (run_from_workflow _ _ _ Hprep), settled_cases. cbn [outcome].
    repeat case_match; cbn [outcome]; intros [= <-]; eauto 10.
  - unfold run. rewrite (bind_threw _ _ _ Hprep). cbn [outcome]. intros [= ->].
    destruct (prepare_throws _ _ Hprep) as [->|[->|[e ->]]]; eauto 10.
Qed.

(** X21. The options the workflow is given carry the flags unchanged:
    alias, API version, client id (as consumer key), duration in days,
    the two packaging toggles, set-default and track-source. Their hub is
    the one the loop chose, and the base URL the statuses are built with
    is the instance URL of that hub, which is not empty. *)
Theorem options_carry_the_flags (flags : Flag.Flags) (baseUrl : string)
    (options : ScratchOrgCreateOptions Org) :
  outcome (prepare flags) = Returned (baseUrl, options) ->
  (alias options = Flag.alias flags /\
   apiversion options = Flag.api_version flags /\
   connectedAppConsumerKey options = Flag.client_id flags /\
   durationDays options = days (Flag.duration_days flags) /\
   nonamespace options = Flag.no_namespace flags /\
   noancestors options = Flag.no_ancestors flags /\
   setDefault options = Flag.set_default flags /\
   tracksSource options = Flag.track_source flags) /\
  outcome (resolveDevHub flags) = Returned (hubOrg options) /\
  Org_INSTANCE_URL (hubOrg options) = Some baseUrl /\
  baseUrl ≠ "".
Proof.
  intros Hprep.
  destruct (prepare_inv _ _ _ Hprep) as (definition & Hloop & Hurl & Hne & _ & _ & Hopts & _).
  split; [rewrite Hopts; by repeat split|].
  split; [|done].
  unfold resolveDevHub. by rewrite (bind_returned _ _ _ Hloop).
Qed.

End EndingsMore.

(* ===================================================================== *)
(** ** These statements at work in the two small worlds                  *)
(* ===================================================================== *)
Section MoreRuns.
Import LimitTypes Runtime OrgUtils OrgCreateScratch Observed.

Lemma outage_hubA_skipped (v : string) :
  v ∈ ["hubA"] -> exists c l, @reports Outage.sdk v c l /\ ¬ hasCapacity l.
Proof.
  intros Hv. apply list_elem_of_singleton in Hv as ->.
  exists "hubA", (Outage.limitsOf "hubA"). split; [by exists "hubA"|].
  intros (a & d & _ & Hd & _). vm_compute in Hd. discriminate.
Defined.

Lemma outage_hub_with_capacity (hub : string) :
  Outage.limitsOf hub = Demo.limitsOf "hubB" -> hasCapacity (Outage.limitsOf hub).
Proof. intros ->. exact hubB_with_capacity. Defined.

Lemma run_fails_fast_on_unreachable_hub_witness :
  outcome (@run Outage.sdk (Outage.flagsOn ["hubA"; "hubDown"; "hubB"] "dev" None None false))
  = Threw (Rejected Outage.authError) /\
  contacted (effects (@run Outage.sdk
                        (Outage.flagsOn ["hubA"; "hubDown"; "hubB"] "dev" None None false)))
  = ["hubA"; "hubDown"] /\
  orgsCreated (effects (@run Outage.sdk
                          (Outage.flagsOn ["hubA"; "hubDown"; "hubB"] "dev" None None false)))
  = [].
Proof.
  apply (@run_fails_fast_on_unreachable_hub Outage.sdk
           (Outage.flagsOn ["hubA"; "hubDown"; "hubB"] "dev" None None false)
           ["hubA"] ["hubB"] "hubDown" Outage.authError).
  - reflexivity.
  - exact outage_hubA_skipped.
  - left. reflexivity.
Defined.

Lemma run_fails_when_org_cannot_be_made_witness :
  outcome (@run Outage.sdk (Outage.flagsOn ["hubA"; "hubNoOrg"; "hubB"] "dev" None None false))
  = Threw (Rejected Outage.orgError) /\
  contacted (effects (@run Outage.sdk
                        (Outage.flagsOn ["hubA"; "hubNoOrg"; "hubB"] "dev" None None false)))
  = ["hubA"; "hubNoOrg"] /\
  orgsCreated (effects (@run Outage.sdk
                          (Outage.flagsOn ["hubA"; "hubNoOrg"; "hubB"] "dev" None None false)))
  = ["hubNoOrg" : @Connection Outage.sdk].
Proof.
  apply (@run_fails_when_org_cannot_be_made Outage.sdk
           (Outage.flagsOn ["hubA"; "hubNoOrg"; "hubB"] "dev" None None false)
           ["hubA"] ["hubB"] "hubNoOrg" "hubNoOrg" (Outage.limitsOf "hubNoOrg")
           Outage.orgError).
  - reflexivity.
  - exact outage_hubA_skipped.
  - by exists "hubNoOrg".
  - apply outage_hub_with_capacity. reflexivity.
  - reflexivity.
Defined.

Lemma workflow_runs_once_on_a_hub_with_capacity_witness :
  passedDownstream (effects (@run Demo.sdk (Demo.flagsWith "dev" None false)))
  = [Demo.optionsWith "dev" None false] /\
  exists hub connection limits,
    hub ∈ ["hubA"; "hubB"; "hubC"] /\
    @reports Demo.sdk hub connection limits /\ hasCapacity limits /\
    @Org_create Demo.sdk connection = inr (hubOrg (Demo.optionsWith "dev" None false)).
Proof.
  apply (@workflow_runs_once_on_a_hub_with_capacity Demo.sdk
           (Demo.flagsWith "dev" None false) (Demo.optionsWith "dev" None false)).
  assert (H : passedDownstream (effects (@run Demo.sdk (Demo.flagsWith "dev" None false)))
              = [Demo.optionsWith "dev" None false]) by (vm_compute; reflexivity).
  rewrite H. left.
Defined.

Lemma run_requires_instance_url_witness :
  outcome (@run Outage.sdk (Outage.flagsOn ["hubA"; "hubNoUrl"] "dev" (Some "3MVG9") None false))
  = Threw (NewSfError "No instance URL found for the dev hub") /\
  effects (@run Outage.sdk (Outage.flagsOn ["hubA"; "hubNoUrl"] "dev" (Some "3MVG9") None false))
  = effects (@resolveDevHub Outage.sdk
               (Outage.flagsOn ["hubA"; "hubNoUrl"] "dev" (Some "3MVG9") None false)) /\
  prompts (effects (@run Outage.sdk
                      (Outage.flagsOn ["hubA"; "hubNoUrl"] "dev" (Some "3MVG9") None false)))
  = [] /\
  filesRead (effects (@run Outage.sdk
                        (Outage.flagsOn ["hubA"; "hubNoUrl"] "dev" (Some "3MVG9") None false)))
  = [] /\
  passedDownstream (effects (@run Outage.sdk
                               (Outage.flagsOn ["hubA"; "hubNoUrl"] "dev" (Some "3MVG9") None false)))
  = [].
Proof.
  apply (@run_requires_instance_url Outage.sdk
           (Outage.flagsOn ["hubA"; "hubNoUrl"] "dev" (Some "3MVG9") None false) "hubNoUrl").
  - vm_compute. reflexivity.
  - reflexivity.
Defined.

Lemma secret_prompted_only_for_client_id_witness :
  prompts (effects (@run Outage.sdk (Outage.flagsOn ["hubB"] "dev" None None false))) = [] /\
  prompts (effects (@run Outage.sdk (Outage.flagsOn ["hubB"] "dev" (Some "3MVG9") None false)))
  = ["prompt.secret:"] /\
  connectedAppConsumerKey (Outage.optionsOn ["hubB"] "dev" (Some "3MVG9") None false ∅)
  = Some "3MVG9" /\
  clientSecret (Outage.optionsOn ["hubB"] "dev" (Some "3MVG9") None false ∅) = Some "secret".
Proof.
  split.
  - exact (proj1 (@secret_prompted_only_for_client_id Outage.sdk
                    (Outage.flagsOn ["hubB"] "dev" None None false)) eq_refl).
  - assert (Hprep : outcome (@prepare Outage.sdk
                                (Outage.flagsOn ["hubB"] "dev" (Some "3MVG9") None false))
                    = Returned ("https://hubB",
                                Outage.optionsOn ["hubB"] "dev" (Some "3MVG9") None false ∅))
      by (vm_compute; reflexivity).
    pose proof (proj2 (@secret_prompted_only_for_client_id Outage.sdk
                         (Outage.flagsOn ["hubB"] "dev" (Some "3MVG9") None false))
                  "https://hubB"
                  (Outage.optionsOn ["hubB"] "dev" (Some "3MVG9") None false ∅) Hprep) as H.
    destruct H as (Hprompts & Hkey & _).
    split; [exact Hprompts|]. split; [exact Hkey|reflexivity].
Defined.


Lemma run_fails_on_bad_definition_file_witness :
  (outcome (@run Outage.sdk (Outage.flagsOn ["hubB"] "dev" None (Some "missing.json") false))
   = Threw (Rejected Outage.fileError) /\
   passedDownstream (effects (@run Outage.sdk
                                (Outage.flagsOn ["hubB"] "dev" None (Some "missing.json") false)))
   = []) /\
  (outcome (@run Outage.sdk
              (Outage.flagsOn ["hubB"] "dev" (Some "3MVG9") (Some "broken.json") false))
   = Threw (Rejected Outage.syntaxError) /\
   filesRead (effects (@run Outage.sdk
                         (Outage.flagsOn ["hubB"] "dev" (Some "3MVG9") (Some "broken.json") false)))
   = ["broken.json"]).
Proof.
  split.
  - destruct (@run_fails_on_bad_definition_file Outage.sdk
                (Outage.flagsOn ["hubB"] "dev" None (Some "missing.json") false)
                "hubB" Outage.fileError) as (Hout & _ & Hpassed & _).
    + vm_compute. reflexivity.
    + reflexivity.
    + intros H. discriminate H.
    + reflexivity.
    + left. reflexivity.
    + split; [exact Hout|exact Hpassed].
  - destruct (@run_fails_on_bad_definition_file Outage.sdk
                (Outage.flagsOn ["hubB"] "dev" (Some "3MVG9") (Some "broken.json") false)
                "hubB" Outage.syntaxError) as (Hout & Hread & _).
    + vm_compute. reflexivity.
    + reflexivity.
    + intros _. by exists "secret".
    + reflexivity.
    + right. by exists "{".
    + split; [exact Hout|exact Hread].
Defined.

End MoreRuns.

Section MoreEndings.
Import LimitTypes Runtime OrgUtils OrgCreateScratch Observed.

Lemma demo_prepared (alias : string) (async : bool) :
  outcome (@prepare Demo.sdk (Demo.flagsWith alias None async))
  = Returned ("https://hubB", Demo.optionsWith alias None async).
Proof. destruct async; vm_compute; reflexivity. Defined.

Lemma outage_prepared (alias : string) :
  outcome (@prepare Outage.sdk (Outage.flagsOn ["hubB"] alias None None false))
  = Returned ("https://hubB", Outage.optionsOn ["hubB"] alias None None false ∅).
Proof. vm_compute. reflexivity. Defined.

Lemma successful_run_trace_witness :
  effects (@run Demo.sdk (Demo.flagsWith "dev" None true))
  = effects (@prepare Demo.sdk (Demo.flagsWith "dev" None true))
    ++ [@Log Demo.sdk;
        SpinnerStart "Requesting Scratch Org (will not wait for completion because --async)";
        CallScratchOrgCreate
          (Demo.optionsWith "dev" None true : ScratchOrgCreateOptions (@Org Demo.sdk));
        SpinnerStop None;
        Log;
        Info (@getMessage Demo.sdk "action.resume"
                [Some (@config_bin Demo.sdk); @ScratchOrgInfo_Id Demo.sdk "2SR000000000001"])].
Proof.
  exact (@successful_run_trace Demo.sdk (Demo.flagsWith "dev" None true) "https://hubB"
           (Demo.optionsWith "dev" None true) Demo.created "2SR000000000001"
           (demo_prepared "dev" true) eq_refl eq_refl).
Defined.

Lemma timeout_branch_by_error_data_witness :
  outcome (@run Outage.sdk (Outage.flagsOn ["hubB"] "stalled" None None false))
  = Threw TypeError /\
  last (effects (@run Outage.sdk (Outage.flagsOn ["hubB"] "stalled" None None false)))
  = Some (SpinnerStop
            (last (@statusesOf Outage.sdk "https://hubB"
                     (@scratchOrgCreate Outage.sdk
                        (Outage.optionsOn ["hubB"] "stalled" None None false ∅)).1))) /\
  Forall (fun ev => forall message, ev ≠ Info message)
         (effects (@run Outage.sdk (Outage.flagsOn ["hubB"] "stalled" None None false))).
Proof.
  exact (@timeout_branch_by_error_data Outage.sdk
           (Outage.flagsOn ["hubB"] "stalled" None None false) "https://hubB"
           (Outage.optionsOn ["hubB"] "stalled" None None false ∅) Outage.bareTimeout
           (outage_prepared "stalled") eq_refl (conj eq_refl eq_refl)).
Defined.

Lemma spinner_follows_lifecycle_events_witness :
  (spinnerStatuses (effects (@run Demo.sdk (Demo.flagsWith "dev" None false)))
   = ["Creating on https://hubB"; "Deploying on https://hubB"] /\
   spinnerStops (effects (@run Demo.sdk (Demo.flagsWith "dev" None false)))
   = [Some "Deploying on https://hubB"]) /\
  (spinnerStatuses (effects (@run Demo.sdk (Demo.flagsWith "refused" None false))) = [] /\
   spinnerStops (effects (@run Demo.sdk (Demo.flagsWith "refused" None false))) = []).
Proof.
  pose proof (@spinner_follows_lifecycle_events Demo.sdk (Demo.flagsWith "dev" None false)
                "https://hubB" (Demo.optionsWith "dev" None false)
                (demo_prepared "dev" false)) as [Hstatuses Hstops].
  pose proof (@spinner_follows_lifecycle_events Demo.sdk (Demo.flagsWith "refused" None false)
                "https://hubB" (Demo.optionsWith "refused" None false)
                (demo_prepared "refused" false)) as [Hstatuses' Hstops'].
  rewrite Hstatuses, Hstops, Hstatuses', Hstops'.
  repeat split; vm_compute; reflexivity.
Defined.

Lemma exit_69_only_on_timeout_witness :
  ("The scratch org did not complete within your wait time"
   = "The scratch org did not complete within your wait time" /\
   "69" = "69" /\ 69%Z = 69%Z) /\
  exists baseUrl options error data,
    outcome (@prepare Demo.sdk (Demo.flagsWith "slow" None false))
    = Returned (baseUrl, options) /\
    (@scratchOrgCreate Demo.sdk options).2 = inl error /\
    isTimeoutError error /\ errorData error = Some data.
Proof.
  apply (@exit_69_only_on_timeout Demo.sdk (Demo.flagsWith "slow" None false)
           "The scratch org did not complete within your wait time" "69" 69).
  vm_compute. reflexivity.
Defined.

Lemma returned_response_comes_from_the_workflow_witness :
  exists baseUrl options result info,
    outcome (@prepare Demo.sdk (Demo.flagsWith "dev" None true)) = Returned (baseUrl, options) /\
    (@scratchOrgCreate Demo.sdk options).2 = inr result /\
    result_scratchOrgInfo result = Some info /\
    Some "2SR000000000001" = Some info /\
    Some "test-1@example.com" = result_username result /\
    Some "00D000000000001" = result_authFields result /\
    [] = result_warnings result /\
    Some "00D000000000001" = @AuthFields_orgId Demo.sdk "00D000000000001".
Proof.
  apply (@returned_response_comes_from_the_workflow Demo.sdk
           (Demo.flagsWith "dev" None true)
           {| username := Some "test-1@example.com";
              scratchOrgInfo := Some "2SR000000000001";
              authFields := Some "00D000000000001";
              warnings := [];
              orgId := Some "00D000000000001" |}).
  vm_compute. reflexivity.
Defined.

Lemma run_throws_one_of_witness :
  TypeError = MessagesError "noAvailableDevhubs" \/
  TypeError = NewSfError "No instance URL found for the dev hub" \/
  TypeError = NewSfError "The scratch org did not return with any information" \/
  TypeError = CLIError "The scratch org did not complete within your wait time" "69" 69 \/
  TypeError = TypeError \/
  exists e, TypeError = Rejected e.
Proof.
  apply (@run_throws_one_of Outage.sdk (Outage.flagsOn ["hubB"] "stalled" None None false)).
  vm_compute. reflexivity.
Defined.

Lemma options_carry_the_flags_witness :
  (alias (Demo.optionsWith "dev" None false) = Flag.alias (Demo.flagsWith "dev" None false) /\
   apiversion (Demo.optionsWith "dev" None false)
   = Flag.api_version (Demo.flagsWith "dev" None false) /\
   connectedAppConsumerKey (Demo.optionsWith "dev" None false)
   = Flag.client_id (Demo.flagsWith "dev" None false) /\
   durationDays (Demo.optionsWith "dev" None false)
   = days (Flag.duration_days (Demo.flagsWith "dev" None false)) /\
   nonamespace (Demo.optionsWith "dev" None false)
   = Flag.no_namespace (Demo.flagsWith "dev" None false) /\
   noancestors (Demo.optionsWith "dev" None false)
   = Flag.no_ancestors (Demo.flagsWith "dev" None false) /\
   setDefault (Demo.optionsWith "dev" None false)
   = Flag.set_default (Demo.flagsWith "dev" None false) /\
   tracksSource (Demo.optionsWith "dev" None false)
   = Flag.track_source (Demo.flagsWith "dev" None false)) /\
  outcome (@resolveDevHub Demo.sdk (Demo.flagsWith "dev" None false))
  = Returned (hubOrg (Demo.optionsWith "dev" None false)) /\
  @Org_INSTANCE_URL Demo.sdk (hubOrg (Demo.optionsWith "dev" None false))
  = Some "https://hubB" /\
  "https://hubB" ≠ "".
Proof.
  exact (@options_carry_the_flags Demo.sdk (Demo.flagsWith "dev" None false)
           "https://hubB" (Demo.optionsWith "dev" None false) (demo_prepared "dev" false)).
Defined.

Lemma run_async_never_subscribes_witness :
  subscriptions (effects (@run Demo.sdk (Demo.flagsWith "slow" None true))) = [] /\
  (forall options,
     options ∈ passedDownstream (effects (@run Demo.sdk (Demo.flagsWith "slow" None true))) ->
     wait options = Duration_minutes 0).
Proof.
  exact (@run_async_never_subscribes Demo.sdk (Demo.flagsWith "slow" None true) eq_refl).
Defined.

End MoreEndings.
